(** * Energy indicators pipeline: [scripts/analysis.py]

    A shallow embedding of the batch job that downloads World Bank
    indicators, joins them into one table, filters it, derives two ratio
    columns and prepares a forecast axis, together with the properties
    of the pipeline that are established about it.

    Conventions.
    - Python values decoded from JSON are the inductive [json].
    - Python exceptions are values of [exn]; a computation either
      [Returns] a value or [Raises] an exception.
    - float64 numbers are Rocq's primitive binary64 floats; the pandas
      missing-value marker of a float column is NaN.  An int64 number
      is an integer of [Z] kept within 64 bits by [wrap64].
    - The network is an environment mapping a URL to the response the
      server gives; every GET is recorded in a request log. *)

From Stdlib Require Import ZArith List String Ascii Bool Lia.
From Stdlib Require Import Floats.
From Stdlib Require Import Sorting.Sorted Sorting.Permutation.
Import ListNotations.

Set Warnings "-register-all".

Local Open Scope string_scope.
Local Open Scope list_scope.
Local Open Scope Z_scope.

(* ================================================================== *)
(** ** Python values, exceptions and outcomes *)
(* ================================================================== *)

(** The values [json.loads] builds.  A [JDict] lists the items of the
    decoded dict in insertion order (keys of a decoded dict are
    strings); characters of a [JStr] are code points below 256. *)
Inductive json : Type :=
| JNull
| JBool (b : bool)
| JInt (z : Z)
| JFloat (f : float)
| JStr (s : string)
| JList (l : list json)
| JDict (d : list (string * json)).

Inductive exn : Type :=
| ConnectionError
| HTTPError
| JSONDecodeError
| IndexError
| KeyError
| TypeError
| ValueError
| OverflowError.

(** [Unmodelled] marks a run that leaves the typed table model: a
    country code or name that is no string, a value that is neither a
    number nor null, an integer outside 64 bits, or a plot of a key
    column.  The embedding makes no statement about such runs;
    [schema_frame] below names the fetched frames on which it does. *)
Inductive outcome (A : Type) : Type :=
| Returns (a : A)
| Raises (e : exn)
| Unmodelled.

Arguments Returns {A} a.
Arguments Raises {A} e.
Arguments Unmodelled {A}.

Definition obind {A B} (c : outcome A) (k : A -> outcome B) : outcome B :=
  match c with
  | Returns a => k a
  | Raises e => Raises e
  | Unmodelled => Unmodelled
  end.

Declare Scope outcome_scope.
Delimit Scope outcome_scope with outcome.
Notation "x <- c ;; k" := (obind c (fun x => k))
  (at level 61, c at next level, right associativity) : outcome_scope.

(** A [for] loop that appends one result per element and stops at the
    first exception. *)
Fixpoint for_each {A B} (f : A -> outcome B) (l : list A) : outcome (list B) :=
  match l with
  | [] => Returns []
  | x :: l' =>
      obind (f x) (fun y =>
      obind (for_each f l') (fun ys => Returns (y :: ys)))
  end.

(** *** Subscripting and iteration *)

Fixpoint lookup (k : string) (d : list (string * json)) : option json :=
  match d with
  | [] => None
  | (k', v) :: d' => if String.eqb k k' then Some v else lookup k d'
  end.

Definition chars (s : string) : list json :=
  map (fun c => JStr (String c EmptyString)) (list_ascii_of_string s).

(** [v[i]] for a non-negative integer literal [i]. *)
Definition getitem_index (v : json) (i : nat) : outcome json :=
  match v with
  | JList l =>
      match nth_error l i with Some x => Returns x | None => Raises IndexError end
  | JStr s =>
      match nth_error (chars s) i with Some x => Returns x | None => Raises IndexError end
  | JDict _ => Raises KeyError
  | JNull | JBool _ | JInt _ | JFloat _ => Raises TypeError
  end.

(** [v[k]] for a string literal [k]. *)
Definition getitem_key (v : json) (k : string) : outcome json :=
  match v with
  | JDict d =>
      match lookup k d with Some x => Returns x | None => Raises KeyError end
  | _ => Raises TypeError
  end.

(** The elements a [for] loop over [v] visits. *)
Definition iter (v : json) : outcome (list json) :=
  match v with
  | JList l => Returns l
  | JStr s => Returns (chars s)
  | JDict d => Returns (map (fun kv => JStr (fst kv)) d)
  | JNull | JBool _ | JInt _ | JFloat _ => Raises TypeError
  end.

(** *** [int(...)] *)

Definition digit_value (c : ascii) : option Z :=
  let n := Z.of_nat (nat_of_ascii c) in
  if (48 <=? n) && (n <=? 57) then Some (n - 48) else None.

Definition is_underscore (c : ascii) : bool := Ascii.eqb c "_"%char.

(** Whitespace that [int] skips around a numeral: tab, line feed,
    vertical tab, form feed, carriage return, space, and the two
    Latin-1 spaces U+0085 and U+00A0. *)
Definition int_space (c : ascii) : bool :=
  let n := Z.of_nat (nat_of_ascii c) in
  ((9 <=? n) && (n <=? 13)) || (n =? 32) || (n =? 133) || (n =? 160).

Fixpoint skip_space (l : list ascii) : list ascii :=
  match l with
  | c :: l' => if int_space c then skip_space l' else l
  | [] => []
  end.

(** Digits after a first digit: a single underscore may separate two
    digits.  Returns the value read and the unread rest. *)
Fixpoint scan_digits (acc : Z) (l : list ascii) {struct l} : option (Z * list ascii) :=
  match l with
  | [] => Some (acc, [])
  | c :: l' =>
      match digit_value c with
      | Some d => scan_digits (10 * acc + d) l'
      | None =>
          if is_underscore c then
            match l' with
            | c' :: l'' =>
                match digit_value c' with
                | Some d => scan_digits (10 * acc + d) l''
                | None => None
                end
            | [] => None
            end
          else Some (acc, l)
      end
  end.

Definition scan_numeral (l : list ascii) : option (Z * list ascii) :=
  match l with
  | c :: l' =>
      match digit_value c with
      | Some d => scan_digits d l'
      | None => None
      end
  | [] => None
  end.

(** [int(s)] for a string: optional surrounding whitespace, an optional
    sign, then a base-10 numeral.  (The cap some interpreter versions
    put on the number of digits is not modelled.) *)
Definition int_of_string (s : string) : option Z :=
  let l := skip_space (list_ascii_of_string s) in
  let '(sign, l) :=
    match l with
    | c :: l' =>
        if Ascii.eqb c "+"%char then (1, l')
        else if Ascii.eqb c "-"%char then (-1, l')
        else (1, l)
    | [] => (1, l)
    end in
  match scan_numeral l with
  | Some (n, rest) =>
      match skip_space rest with
      | [] => Some (sign * n)
      | _ :: _ => None
      end
  | None => None
  end.

(** [int(x)] for a float: truncation toward zero. *)
Definition int_of_float (f : float) : outcome Z :=
  match Prim2SF f with
  | S754_zero _ => Returns 0
  | S754_finite s m e =>
      let a := Z.shiftl (Z.pos m) e in
      Returns (if s then - a else a)
  | S754_infinity _ => Raises OverflowError
  | S754_nan => Raises ValueError
  end.

Definition py_int (v : json) : outcome Z :=
  match v with
  | JStr s =>
      match int_of_string s with Some z => Returns z | None => Raises ValueError end
  | JInt z => Returns z
  | JBool b => Returns (if b then 1 else 0)
  | JFloat f => int_of_float f
  | JNull | JList _ | JDict _ => Raises TypeError
  end.

(* ================================================================== *)
(** ** The network: [requests] *)
(* ================================================================== *)

(** A response: its status code and, when the body is valid JSON, the
    value [response.json()] decodes. *)
Record Response : Type := mkResponse {
  status_code : Z;
  json_body : option json
}.

(** What the server answers to a GET of a URL; [None] when the request
    itself fails. *)
Definition Net : Type := string -> option Response.

(** The URLs requested so far, oldest first. *)
Definition Log : Type := list string.

(** Computations that may issue requests. *)
Definition Py (A : Type) : Type := Net -> Log -> outcome A * Log.

Definition ret {A} (a : A) : Py A := fun _ log => (Returns a, log).

Definition bind {A B} (c : Py A) (k : A -> Py B) : Py B :=
  fun net log =>
    match c net log with
    | (Returns a, log') => k a net log'
    | (Raises e, log') => (Raises e, log')
    | (Unmodelled, log') => (Unmodelled, log')
    end.

Definition lift {A} (c : outcome A) : Py A := fun _ log => (c, log).

Declare Scope py_scope.
Delimit Scope py_scope with py.
Notation "x <- c ;; k" := (bind c (fun x => k))
  (at level 61, c at next level, right associativity) : py_scope.

Fixpoint mapM {A B} (f : A -> Py B) (l : list A) : Py (list B) :=
  match l with
  | [] => ret []
  | x :: l' =>
      bind (f x) (fun y =>
      bind (mapM f l') (fun ys => ret (y :: ys)))
  end.

Module requests.

Definition get (url : string) : Py Response :=
  fun net log =>
    match net url with
    | Some r => (Returns r, log ++ [url])
    | None => (Raises ConnectionError, log ++ [url])
    end.

(** [Response.raise_for_status]: client (4xx) and server (5xx) error
    codes raise. *)
Definition is_error_status (s : Z) : bool := (400 <=? s) && (s <? 600).

Definition raise_for_status (r : Response) : outcome unit :=
  if is_error_status (status_code r) then Raises HTTPError else Returns tt.

Definition json (r : Response) : outcome json :=
  match json_body r with
  | Some j => Returns j
  | None => Raises JSONDecodeError
  end.

End requests.

(* ================================================================== *)
(** ** [fetch_indicator] *)
(* ================================================================== *)

(** One dict appended to [rows]: the cells are the decoded objects as
    they are, the year is the integer [int] returned. *)
Record ObsRow : Type := mkObsRow {
  obs_country_code : json;
  obs_country : json;
  obs_year : Z;
  obs_value : json
}.

(** [pd.DataFrame(rows)] for the rows of one indicator: the value
    column is named after the indicator.  With no rows the frame has no
    columns at all. *)
Record IndicatorFrame : Type := mkIndicatorFrame {
  indicator_name : string;
  observations : list ObsRow
}.

Definition indicator_url (indicator : string) : string :=
  ("https://api.worldbank.org/v2/country/all/indicator/" ++ indicator
   ++ "?format=json&per_page=20000")%string.

(** The body of the loop: the dict display evaluates its four values in
    order. *)
Definition row_of_record (rec : json) : outcome ObsRow :=
  (code <- getitem_key rec "countryiso3code" ;;
   c <- getitem_key rec "country" ;;
   name <- getitem_key c "value" ;;
   d <- getitem_key rec "date" ;;
   y <- py_int d ;;
   v <- getitem_key rec "value" ;;
   Returns (mkObsRow code name y v))%outcome.

(** Everything after [requests.get]: status check, decoding, the second
    element, the loop. *)
Definition rows_of_response (response : Response) : outcome (list ObsRow) :=
  (_ <- requests.raise_for_status response ;;
   json_data <- requests.json response ;;
   records <- getitem_index json_data 1 ;;
   recs <- iter records ;;
   for_each row_of_record recs)%outcome.

Definition fetch_indicator (indicator : string) : Py IndicatorFrame :=
  (response <- requests.get (indicator_url indicator) ;;
   rows <- lift (rows_of_response response) ;;
   ret (mkIndicatorFrame indicator rows))%py.

(* ================================================================== *)
(** ** Tables: the part of [pandas] the pipeline uses *)
(* ================================================================== *)

(** A cell of a value column.  pandas holds a column as int64 when all
    its values are integers and as float64 as soon as one of them is a
    float or is missing; all cells of one column have the same type. *)
Inductive cell : Type :=
| Int64 (z : Z)
| Float64 (f : float).

(** The float64 nearest to an integer of the int64 range (ties to
    even), as numpy converts. *)
Definition float_of_Z (z : Z) : float :=
  if z =? - 2 ^ 63 then (-9223372036854775808)%float
  else
    let a := of_uint63 (Uint63.of_Z (Z.abs z)) in
    if z <? 0 then (- a)%float else a.

(** The number a cell holds, as float64. *)
Definition to_float (c : cell) : float :=
  match c with
  | Int64 z => float_of_Z z
  | Float64 f => f
  end.

(** The cell after its column became float64. *)
Definition promote (c : cell) : cell := Float64 (to_float c).

(** A table row: the three key columns and the value columns in column
    order.  A missing value is NaN. *)
Record Row : Type := mkRow {
  country_code : string;
  country : string;
  year : Z;
  cells : list cell
}.

(** [keyed] tells whether the key columns [country_code], [country] and
    [year] exist: they do except in a frame built from zero rows.
    [columns] names the value columns. *)
Record DataFrame : Type := mkDataFrame {
  keyed : bool;
  columns : list string;
  rows : list Row
}.

Definition isna (x : float) : bool := is_nan x.

(** *** From fetched rows to typed columns *)

Definition text_cell (v : json) : outcome string :=
  match v with
  | JStr s => Returns s
  | _ => Unmodelled
  end.

Definition int64_range (z : Z) : bool := (- 2 ^ 63 <=? z) && (z <? 2 ^ 63).

Definition is_int (v : json) : bool :=
  match v with
  | JInt _ => true
  | _ => false
  end.

(** A value of the indicator column.  In an int64 column ([as_int]:
    every value of the column is an integer) the integer is kept as it
    is; in any other column [None] becomes NaN and an integer is
    converted to float64.  (A column of nothing but [None] is an object
    column in pandas; its values are missing for [isna] and in
    arithmetic, as NaN is.) *)
Definition value_cell (as_int : bool) (v : json) : outcome cell :=
  match v with
  | JNull => Returns (Float64 nan)
  | JFloat f => Returns (Float64 f)
  | JInt z =>
      if int64_range z
      then Returns (if as_int then Int64 z else Float64 (float_of_Z z))
      else Unmodelled
  | _ => Unmodelled
  end.

(** The year column is int64. *)
Definition typed_row (as_int : bool) (o : ObsRow) : outcome Row :=
  (code <- text_cell (obs_country_code o) ;;
   name <- text_cell (obs_country o) ;;
   v <- value_cell as_int (obs_value o) ;;
   if int64_range (obs_year o)
   then Returns (mkRow code name (obs_year o) [v])
   else Unmodelled)%outcome.

(** The table of a fetched frame: [pd.DataFrame(rows)] infers the type
    of the value column from all its values. *)
Definition table_of_frame (f : IndicatorFrame) : outcome DataFrame :=
  match observations f with
  | [] => Returns (mkDataFrame false [] [])
  | obs =>
      let as_int := forallb (fun o => is_int (obs_value o)) obs in
      (rs <- for_each (typed_row as_int) obs ;;
       Returns (mkDataFrame true [indicator_name f] rs))%outcome
  end.

(** *** [pd.merge(left, right, on=[country_code, country, year], how="outer")] *)

Definition Key : Type := string * string * Z.

Definition key_of (r : Row) : Key := (country_code r, country r, year r).

Definition key_compare (a b : Key) : comparison :=
  let '(c1, n1, y1) := a in
  let '(c2, n2, y2) := b in
  match String.compare c1 c2 with
  | Eq =>
      match String.compare n1 n2 with
      | Eq => Z.compare y1 y2
      | c => c
      end
  | c => c
  end.

Definition key_eqb (a b : Key) : bool :=
  match key_compare a b with Eq => true | _ => false end.

(** Insertion into an increasing list of distinct keys. *)
Fixpoint insert_key (k : Key) (l : list Key) : list Key :=
  match l with
  | [] => [k]
  | k' :: l' =>
      match key_compare k k' with
      | Lt => k :: l
      | Eq => l
      | Gt => k' :: insert_key k l'
      end
  end.

(** The distinct keys of a list, in lexicographic order. *)
Definition sorted_keys (ks : list Key) : list Key := fold_right insert_key [] ks.

Definition has_key (k : Key) (r : Row) : bool := key_eqb k (key_of r).

Definition join_rows (a b : Row) : Row :=
  mkRow (country_code a) (country a) (year a) (cells a ++ cells b).

Definition left_only (nr : nat) (a : Row) : Row :=
  mkRow (country_code a) (country a) (year a) (cells a ++ repeat (Float64 nan) nr).

Definition right_only (nl : nat) (b : Row) : Row :=
  mkRow (country_code b) (country b) (year b) (repeat (Float64 nan) nl ++ cells b).

(** The rows of the outer join for one key: every pairing of a left and
    a right row with that key, or the rows of the one side padded with
    NaN when the other side has none. *)
Definition rows_for_key (nl nr : nat) (left right : list Row) (k : Key) : list Row :=
  let ls := filter (has_key k) left in
  let rs := filter (has_key k) right in
  match ls, rs with
  | [], _ => map (right_only nl) rs
  | _, [] => map (left_only nr) ls
  | _, _ => flat_map (fun a => map (join_rows a) rs) ls
  end.

Definition outer_join (nl nr : nat) (left right : list Row) : list Row :=
  flat_map (rows_for_key nl nr left right)
           (sorted_keys (map key_of left ++ map key_of right)).

Definition mem (c : string) (l : list string) : bool := existsb (String.eqb c) l.

(** Value columns named on both sides get the suffixes [_x] and [_y]. *)
Definition merge_columns (lc rc : list string) : list string :=
  map (fun c => if mem c rc then (c ++ "_x")%string else c) lc
  ++ map (fun c => if mem c lc then (c ++ "_y")%string else c) rc.

Definition with_cells (r : Row) (cs : list cell) : Row :=
  mkRow (country_code r) (country r) (year r) cs.

(** The row after all its value columns became float64. *)
Definition as_float64 (r : Row) : Row := with_cells r (map promote (cells r)).

(** Some row of [xs] has a key that no row of [ys] has. *)
Definition unmatched (xs ys : list Row) : bool :=
  existsb (fun x => negb (existsb (has_key (key_of x)) ys)) xs.

(** The value columns of a side receive NaN, and so become float64,
    exactly when the other side has a row without a partner. *)
Definition merge (left right : DataFrame) : outcome DataFrame :=
  if keyed left && keyed right then
    let ls := if unmatched (rows right) (rows left)
              then map as_float64 (rows left) else rows left in
    let rs := if unmatched (rows left) (rows right)
              then map as_float64 (rows right) else rows right in
    Returns (mkDataFrame true
               (merge_columns (columns left) (columns right))
               (outer_join (List.length (columns left)) (List.length (columns right))
                           ls rs))
  else Raises KeyError.

(** [functools.reduce(f, l)] without an initial value. *)
Definition reduce {A} (f : A -> A -> outcome A) (l : list A) : outcome A :=
  match l with
  | [] => Raises TypeError
  | x :: xs => fold_left (fun acc y => obind acc (fun a => f a y)) xs (Returns x)
  end.

(** *** Selection, missing values, renaming, new columns *)

Fixpoint col_index (name : string) (cols : list string) : option nat :=
  match cols with
  | [] => None
  | c :: cols' =>
      if String.eqb name c then Some O
      else option_map S (col_index name cols')
  end.

(** The cell of column [i] as stored, and the number it holds. *)
Definition exact_at (i : nat) (r : Row) : cell := nth i (cells r) (Float64 nan).

Definition cell_at (i : nat) (r : Row) : float := to_float (exact_at i r).

(** [df[name]] read at one row: the number, and the cell as stored. *)
Definition get (df : DataFrame) (name : string) (r : Row) : option float :=
  option_map (fun i => cell_at i r) (col_index name (columns df)).

Definition get_cell (df : DataFrame) (name : string) (r : Row) : option cell :=
  option_map (fun i => exact_at i r) (col_index name (columns df)).

(** [df[mask]] *)
Definition select (mask : Row -> bool) (df : DataFrame) : DataFrame :=
  mkDataFrame (keyed df) (columns df) (filter mask (rows df)).

Fixpoint col_indices (names : list string) (cols : list string) : outcome (list nat) :=
  match names with
  | [] => Returns []
  | n :: names' =>
      match col_index n cols with
      | Some i => obind (col_indices names' cols) (fun l => Returns (i :: l))
      | None => Raises KeyError
      end
  end.

(** [df.dropna(subset=names)] *)
Definition dropna (names : list string) (df : DataFrame) : outcome DataFrame :=
  obind (col_indices names (columns df)) (fun idx =>
  Returns (select (fun r => forallb (fun i => negb (isna (cell_at i r))) idx) df)).

Fixpoint rename_one (mapping : list (string * string)) (c : string) : string :=
  match mapping with
  | [] => c
  | (old, new) :: m' => if String.eqb c old then new else rename_one m' c
  end.

(** [df.rename(columns=mapping)] *)
Definition rename (mapping : list (string * string)) (df : DataFrame) : DataFrame :=
  mkDataFrame (keyed df) (map (rename_one mapping) (columns df)) (rows df).

Fixpoint set_nth (i : nat) (x : cell) (l : list cell) : list cell :=
  match i, l with
  | O, _ :: l' => x :: l'
  | S i', y :: l' => y :: set_nth i' x l'
  | _, [] => []
  end.

(** int64 arithmetic wraps around silently. *)
Definition wrap64 (z : Z) : Z := (z + 2 ^ 63) mod 2 ^ 64 - 2 ^ 63.

(** [a * b] on two columns: an int64 product when both are int64, the
    float64 product otherwise. *)
Definition cell_mul (a b : cell) : cell :=
  match a, b with
  | Int64 x, Int64 y => Int64 (wrap64 (x * y))
  | _, _ => Float64 (to_float a * to_float b)
  end.

(** [a / b] on two columns is true division: a float64 quotient, also
    for two int64 columns. *)
Definition cell_div (a b : cell) : cell := Float64 (to_float a / to_float b).

(** [df[name] = df[a] op df[b]]: the new column is appended, or
    replaces the column of that name. *)
Definition assign_binop (name : string) (op : cell -> cell -> cell)
           (a b : string) (df : DataFrame) : outcome DataFrame :=
  match col_index a (columns df), col_index b (columns df) with
  | Some i, Some j =>
      let value r := op (exact_at i r) (exact_at j r) in
      match col_index name (columns df) with
      | None =>
          Returns (mkDataFrame (keyed df) (columns df ++ [name])
                     (map (fun r => with_cells r (cells r ++ [value r])) (rows df)))
      | Some n =>
          Returns (mkDataFrame (keyed df) (columns df)
                     (map (fun r => with_cells r (set_nth n (value r) (cells r))) (rows df)))
      end
  | _, _ => Raises KeyError
  end.

(* ================================================================== *)
(** ** [build_dataset] *)
(* ================================================================== *)

Definition indicators : list string :=
  ["EG.FEC.RNEW.ZS"; "EG.USE.PCAP.KG.OE"; "SP.POP.TOTL"; "NY.GDP.PCAP.KD"].

(** The repeated outer join of the fetched frames. *)
Definition merge_frames (frames : list IndicatorFrame) : outcome DataFrame :=
  (tables <- for_each table_of_frame frames ;;
   reduce merge tables)%outcome.

Definition year_and_code_mask (r : Row) : bool :=
  (1990 <=? year r) && Nat.eqb (String.length (country_code r)) 3.

Definition isin (countries : list string) (r : Row) : bool :=
  mem (country_code r) countries.

Definition friendly_names : list (string * string) :=
  [("EG.FEC.RNEW.ZS", "renewable_share");
   ("EG.USE.PCAP.KG.OE", "energy_use_per_capita");
   ("SP.POP.TOTL", "population");
   ("NY.GDP.PCAP.KD", "gdp_per_capita")].

(** The steps between the join and the derived columns: the two row
    filters, the required-field drop and the renaming. *)
Definition clean (countries : list string) (merged : DataFrame) : outcome DataFrame :=
  if keyed merged then
    let merged := select year_and_code_mask merged in
    let merged := select (isin countries) merged in
    (merged <- dropna ["EG.FEC.RNEW.ZS"; "EG.USE.PCAP.KG.OE"] merged ;;
     Returns (rename friendly_names merged))%outcome
  else Raises KeyError.

(** The two derived metrics. *)
Definition derive (merged : DataFrame) : outcome DataFrame :=
  (merged <- assign_binop "total_energy_use" cell_mul
               "energy_use_per_capita" "population" merged ;;
   assign_binop "energy_intensity" cell_div
               "energy_use_per_capita" "gdp_per_capita" merged)%outcome.

Definition build_dataset (countries : list string) : Py DataFrame :=
  (frames <- mapM fetch_indicator indicators ;;
   merged <- lift (merge_frames frames) ;;
   merged <- lift (clean countries merged) ;;
   lift (derive merged))%py.

(* ================================================================== *)
(** ** [forecast_renewable_share] *)
(* ================================================================== *)

(** [range(a, b)] *)
Definition py_range (a b : Z) : list Z :=
  map (fun i => a + Z.of_nat i) (seq 0 (Z.to_nat (b - a))).

Fixpoint insert_by_year (r : Row) (l : list Row) : list Row :=
  match l with
  | [] => [r]
  | r' :: l' =>
      if year r <? year r' then r :: l else r' :: insert_by_year r l'
  end.

(** [df.sort_values("year")]: ascending years.  pandas leaves the
    relative order of rows of equal year unspecified (its default sort
    is not stable); this insertion sort puts them in reverse table
    order. *)
Definition sort_by_year (l : list Row) : list Row := fold_right insert_by_year [] l.

(** A series: index (the year) and value, in order. *)
Definition Series : Type := list (Z * float).

(** The selected country's renewable share, indexed by year, without
    missing values. *)
Definition renewable_series (df : DataFrame) (code : string) : outcome Series :=
  if keyed df then
    match col_index "renewable_share" (columns df) with
    | Some i =>
        let selected := filter (fun r => String.eqb (country_code r) code) (rows df) in
        let indexed := map (fun r => (year r, cell_at i r)) (sort_by_year selected) in
        Returns (filter (fun p => negb (isna (snd p))) indexed)
    | None => Raises KeyError
    end
  else Raises KeyError.

(** [series.index.max()]; nothing to add one to when the index is
    empty. *)
Definition index_max (s : Series) : option Z :=
  match s with
  | [] => None
  | (y, _) :: s' => Some (fold_left Z.max (map fst s') y)
  end.

Section Forecaster.

(** The fitted model's forecast: [ARIMA(series, order=(1, 1,
    1)).fit().forecast(steps=steps)], the values in order. *)
Variable arima_forecast : Series -> Z -> outcome (list float).

(** What the function hands to the two [plt.plot] calls: the
    historical line and the forecast line as (year, value) points. *)
Definition forecast_renewable_share (df : DataFrame) (code : string) (steps : Z)
  : outcome (Series * Series) :=
  (series <- renewable_series df code ;;
   forecast <- arima_forecast series steps ;;
   match index_max series with
   | None => Raises TypeError
   | Some last =>
       let forecast_index := py_range (last + 1) (last + 1 + steps) in
       if Nat.eqb (List.length forecast_index) (List.length forecast)
       then Returns (series, combine forecast_index forecast)
       else Raises ValueError
   end)%outcome.

End Forecaster.

(* ================================================================== *)
(** ** Vocabulary of the statements *)
(* ================================================================== *)

(** The observation object of the population scenario. *)
Definition usa_2020_population : json :=
  JDict [("countryiso3code", JStr "USA");
         ("country", JDict [("value", JStr "United States")]);
         ("date", JStr "2020");
         ("value", JInt 331000000)].

(** A decoded response without a second element: a list shorter than
    two, or no list at all. *)
Definition lacks_second_element (j : json) : Prop :=
  match j with
  | JList l => (List.length l < 2)%nat
  | _ => True
  end.

(** An observation object without one of the fields the loop reads. *)
Definition lacks_field (rec : json) : Prop :=
  match rec with
  | JDict d =>
      lookup "countryiso3code" d = None
      \/ lookup "country" d = None
      \/ (exists c, lookup "country" d = Some (JDict c) /\ lookup "value" c = None)
      \/ lookup "date" d = None
      \/ lookup "value" d = None
  | _ => False
  end.

(** The failure conditions of a fetch: an error status, a body without
    a second element, or an observation object without a field. *)
Definition malformed (response : Response) : Prop :=
  requests.is_error_status (status_code response) = true
  \/ (exists j, json_body response = Some j /\ lacks_second_element j)
  \/ (exists meta recs rest rec,
         json_body response = Some (JList (meta :: JList recs :: rest))
         /\ In rec recs /\ lacks_field rec).

(** The success statuses of HTTP: 2xx. *)
Definition is_success_status (s : Z) : bool := (200 <=? s) && (s <? 300).

(** A server that answers every request with status 300 and a
    well-formed body. *)
Definition multiple_choices_net : Net :=
  fun _ => Some (mkResponse 300 (Some (JList [JNull; JList [usa_2020_population]]))).

(** A body with a single element, and a body whose second observation
    has no "value" field. *)
Definition short_body_net : Net :=
  fun _ => Some (mkResponse 200 (Some (JList [JDict [("page", JInt 1)]]))).

Definition valueless_record : list (string * json) :=
  [("countryiso3code", JStr "USA");
   ("country", JDict [("value", JStr "United States")]);
   ("date", JStr "2019")].

Definition valueless_net : Net :=
  fun _ => Some (mkResponse 200
                   (Some (JList [JNull; JList [usa_2020_population; JDict valueless_record]]))).

(** The (country_code, year) pair of a fetched row, and the pair an
    observation object would give. *)
Definition obs_key (o : ObsRow) : json * Z := (obs_country_code o, obs_year o).

Definition record_key (rec : json) : option (json * Z) :=
  match getitem_key rec "countryiso3code", obind (getitem_key rec "date") py_int with
  | Returns code, Returns y => Some (code, y)
  | _, _ => None
  end.

(** A response with the same observation object twice. *)
Definition duplicated_response : Response :=
  mkResponse 200
    (Some (JList [JNull; JList [usa_2020_population; usa_2020_population]])).


(** The network of the population scenario: every request is answered
    with the one observation. *)
Definition population_net : Net :=
  fun _ => Some (mkResponse 200 (Some (JList [JNull; JList [usa_2020_population]]))).

(** An observation with every field present and a quarterly date. *)
Definition quarterly_record : list (string * json) :=
  [("countryiso3code", JStr "USA");
   ("country", JDict [("value", JStr "United States")]);
   ("date", JStr "2020Q1");
   ("value", JInt 331000000)].

Definition quarterly_net : Net :=
  fun _ => Some (mkResponse 200
                   (Some (JList [JNull; JList [usa_2020_population; JDict quarterly_record]]))).

(** A server that answers every request with status 404. *)
Definition not_found_net : Net := fun _ => Some (mkResponse 404 None).

Definition duplicated_net : Net := fun _ => Some duplicated_response.

(** The join keys of a table, and the (country_code, year) pair of a
    row. *)
Definition keys (t : DataFrame) : list Key := map key_of (rows t).

Definition code_year (r : Row) : string * Z := (country_code r, year r).

(** The table of one fetched indicator: key columns and one value
    column. *)
Definition single_column (t : DataFrame) : Prop :=
  keyed t = true
  /\ List.length (columns t) = 1%nat
  /\ Forall (fun r => List.length (cells r) = 1%nat) (rows t).

(** The frames within the typed tables: country code and name are
    strings, the value is a number or null, and integers (the year
    included) fit in 64 bits. *)
Definition is_str (v : json) : bool :=
  match v with
  | JStr _ => true
  | _ => false
  end.

Definition schema_value (v : json) : bool :=
  match v with
  | JNull | JFloat _ => true
  | JInt z => int64_range z
  | _ => false
  end.

Definition schema_obs (o : ObsRow) : bool :=
  is_str (obs_country_code o) && is_str (obs_country o)
  && int64_range (obs_year o) && schema_value (obs_value o).

Definition schema_frame (f : IndicatorFrame) : bool :=
  forallb schema_obs (observations f).

(** The cell [c] holds the value [v]: as stored, or converted to
    float64 when a join made the column float64. *)
Definition same_value (c v : cell) : Prop := c = v \/ c = promote v.

(** The column types of a row: [true] for int64, [false] for
    float64. *)
Definition is_int64 (c : cell) : bool :=
  match c with
  | Int64 _ => true
  | Float64 _ => false
  end.

Definition dtypes (r : Row) : list bool := map is_int64 (cells r).

(** A row of one side of a join as it enters the result: unchanged, or
    with its value columns made float64. *)
Definition lifted (a a' : Row) : Prop := a' = a \/ a' = as_float64 a.

(** Column [i] of the merged row [r] reflects the indicator table [t]:
    it holds the value of a row of [t] with the key of [r], or the
    missing-value marker when [t] has no row with that key. *)
Definition cell_from (t : DataFrame) (i : nat) (r : Row) : Prop :=
  (exists o, In o (rows t) /\ key_of o = key_of r
             /\ same_value (exact_at i r) (exact_at 0 o))
  \/ ((forall o, In o (rows t) -> key_of o <> key_of r)
      /\ exact_at i r = Float64 nan).

(** [acc] is the outer join of the tables [done], in order. *)
Definition joined (done : list DataFrame) (acc : DataFrame) : Prop :=
  keyed acc = true
  /\ List.length (columns acc) = List.length done
  /\ Forall (fun r => List.length (cells r) = List.length done) (rows acc)
  /\ (forall k, In k (keys acc) <-> exists t, In t done /\ In k (keys t))
  /\ (forall r i t, In r (rows acc) -> nth_error done i = Some t -> cell_from t i r).

(** The frames of the join scenario: every indicator was fetched for
    (USA, 2020); renewable share and population carry a value, energy
    use and GDP carry none. *)
Definition usa_2020 (v : json) : ObsRow :=
  mkObsRow (JStr "USA") (JStr "United States") 2020 v.

Definition scenario_frames (share population : json) : list IndicatorFrame :=
  [mkIndicatorFrame "EG.FEC.RNEW.ZS" [usa_2020 share];
   mkIndicatorFrame "EG.USE.PCAP.KG.OE" [usa_2020 JNull];
   mkIndicatorFrame "SP.POP.TOTL" [usa_2020 population];
   mkIndicatorFrame "NY.GDP.PCAP.KD" [usa_2020 JNull]].

(** The cell of a column whose only value is the number [v]. *)
Definition numeric (v : json) : option cell :=
  match v with
  | JInt z => if int64_range z then Some (Int64 z) else None
  | JFloat f => Some (Float64 f)
  | _ => None
  end.

(** Four fetched frames without any row. *)
Definition empty_frames : list IndicatorFrame :=
  map (fun i => mkIndicatorFrame i []) indicators.

(** Four fetched frames over different keys. *)
Definition obs (code name : string) (y : Z) (v : json) : ObsRow :=
  mkObsRow (JStr code) (JStr name) y v.

Definition sample_frames : list IndicatorFrame :=
  [mkIndicatorFrame "EG.FEC.RNEW.ZS"
     [obs "USA" "United States" 2020 (JFloat 10.5); obs "FRA" "France" 2020 JNull];
   mkIndicatorFrame "EG.USE.PCAP.KG.OE"
     [obs "USA" "United States" 2020 (JFloat 6800); obs "USA" "United States" 2019 (JFloat 6900)];
   mkIndicatorFrame "SP.POP.TOTL"
     [obs "DEU" "Germany" 1989 (JInt 78000000); obs "USA" "United States" 2020 JNull];
   mkIndicatorFrame "NY.GDP.PCAP.KD"
     [obs "USA" "United States" 2020 (JFloat 60000)]].

(** The columns of the cleaned and of the final table. *)
Definition friendly_columns : list string :=
  ["renewable_share"; "energy_use_per_capita"; "population"; "gdp_per_capita"].

Definition final_columns : list string :=
  friendly_columns ++ ["total_energy_use"; "energy_intensity"].

(** The row mask of the required-field drop, and the two row updates of
    the derived columns, on a table with the four indicator columns. *)
Definition required_present (r : Row) : bool :=
  forallb (fun i => negb (isna (cell_at i r))) [0%nat; 1%nat].

Definition with_total (r : Row) : Row :=
  with_cells r (cells r ++ [cell_mul (exact_at 1 r) (exact_at 2 r)]).

Definition with_intensity (r : Row) : Row :=
  with_cells r (cells r ++ [cell_div (exact_at 1 r) (exact_at 3 r)]).

(** A small World Bank: the response to each of the four indicator
    requests. *)
Definition record (code name date : string) (v : json) : json :=
  JDict [("countryiso3code", JStr code);
         ("country", JDict [("id", JStr code); ("value", JStr name)]);
         ("date", JStr date);
         ("value", v)].

Definition page (records : list json) : option Response :=
  Some (mkResponse 200 (Some (JList [JDict [("page", JInt 1)]; JList records]))).

Definition sample_net : Net :=
  fun url =>
    if String.eqb url (indicator_url "EG.FEC.RNEW.ZS") then
      page [record "USA" "United States" "2020" (JFloat 10.5);
            record "USA" "United States" "2019" (JFloat 9.5);
            record "FRA" "France" "2020" JNull;
            record "WLD" "World" "2020" (JFloat 17.5)]
    else if String.eqb url (indicator_url "EG.USE.PCAP.KG.OE") then
      page [record "USA" "United States" "2020" (JFloat 6800);
            record "USA" "United States" "2019" (JFloat 6900);
            record "FRA" "France" "2020" (JFloat 3500);
            record "WLD" "World" "2020" (JFloat 1900)]
    else if String.eqb url (indicator_url "SP.POP.TOTL") then
      page [record "USA" "United States" "2020" (JInt 331000000);
            record "USA" "United States" "2019" JNull;
            record "DEU" "Germany" "1989" (JInt 78000000)]
    else if String.eqb url (indicator_url "NY.GDP.PCAP.KD") then
      page [record "USA" "United States" "2020" (JFloat 60000);
            record "FRA" "France" "2020" (JFloat 38000)]
    else None.

Definition sample_countries : list string := ["USA"; "FRA"].

Definition sample_run : outcome DataFrame * Log :=
  Eval vm_compute in build_dataset sample_countries sample_net [].

Definition sample_dataset : DataFrame :=
  match fst sample_run with
  | Returns df => df
  | _ => mkDataFrame false [] []
  end.

(** The (USA, 2020) row of the sample dataset. *)
Definition sample_row : Row :=
  Eval vm_compute in
    nth 1 (rows sample_dataset) (mkRow "" "" 0 []).

(** The same World Bank, except that the GDP per capita of (USA, 2020)
    is reported as zero. *)
Definition zero_gdp_net : Net :=
  fun url =>
    if String.eqb url (indicator_url "NY.GDP.PCAP.KD") then
      page [record "USA" "United States" "2020" (JFloat 0)]
    else sample_net url.

Definition zero_gdp_run : outcome DataFrame * Log :=
  Eval vm_compute in build_dataset sample_countries zero_gdp_net [].

(** The (USA, 2020) row of the run with zero GDP. *)
Definition zero_gdp_row : Row :=
  mkRow "USA" "United States" 2020
    [Float64 10.5%float; Float64 6800%float; Float64 331000000%float; Float64 0%float;
     Float64 2250800000000%float; Float64 infinity].

(** The (USA, 2019) row of the sample dataset: population and GDP per
    capita are missing. *)
Definition usa_2019_row : Row :=
  Eval vm_compute in
    nth 0 (rows sample_dataset) (mkRow "" "" 0 []).

(** A World Bank whose four pages hold one observation each, for (USA,
    2020), with the given energy use, population and GDP per capita. *)
Definition single_net (use population gdp : json) : Net :=
  fun url =>
    if String.eqb url (indicator_url "EG.FEC.RNEW.ZS") then
      page [record "USA" "United States" "2020" (JFloat 10.5)]
    else if String.eqb url (indicator_url "EG.USE.PCAP.KG.OE") then
      page [record "USA" "United States" "2020" use]
    else if String.eqb url (indicator_url "SP.POP.TOTL") then
      page [record "USA" "United States" "2020" population]
    else if String.eqb url (indicator_url "NY.GDP.PCAP.KD") then
      page [record "USA" "United States" "2020" gdp]
    else None.

(** Energy use and GDP both reported as zero. *)
Definition zero_both_net : Net := single_net (JFloat 0) (JInt 331000000) (JFloat 0).

Definition zero_both_row : Row :=
  mkRow "USA" "United States" 2020
    [Float64 10.5%float; Float64 0%float; Int64 331000000; Float64 0%float;
     Float64 0%float; Float64 nan].

(** Energy use and population both reported in integers: two int64
    columns.  In the first run the product fits in 64 bits, in the
    second it does not. *)
Definition integer_net : Net := single_net (JInt 6800) (JInt 331000000) (JInt 60000).

Definition integer_row : Row :=
  mkRow "USA" "United States" 2020
    [Float64 10.5%float; Int64 6800; Int64 331000000; Int64 60000;
     Int64 2250800000000; Float64 (6800 / 60000)%float].

Definition wide_net : Net :=
  single_net (JInt 4000000000) (JInt 4000000000) (JFloat 60000).

Definition wide_row : Row :=
  mkRow "USA" "United States" 2020
    [Float64 10.5%float; Int64 4000000000; Int64 4000000000; Float64 60000%float;
     Int64 (-2446744073709551616); Float64 (4000000000 / 60000)%float].

(** A World Bank that answers the first indicator and is out of service
    afterwards. *)
Definition outage_net : Net :=
  fun url =>
    if String.eqb url (indicator_url "EG.FEC.RNEW.ZS") then sample_net url
    else Some (mkResponse 503 None).

(** A World Bank that reports the United States under a two-letter
    code. *)
Definition two_letter_net : Net :=
  fun url =>
    if String.eqb url (indicator_url "EG.FEC.RNEW.ZS") then
      page [record "US" "United States" "2020" (JFloat 10.5)]
    else if String.eqb url (indicator_url "EG.USE.PCAP.KG.OE") then
      page [record "US" "United States" "2020" (JFloat 6800)]
    else if String.eqb url (indicator_url "SP.POP.TOTL") then
      page [record "US" "United States" "2020" (JInt 331000000)]
    else if String.eqb url (indicator_url "NY.GDP.PCAP.KD") then
      page [record "US" "United States" "2020" (JFloat 60000)]
    else None.

(** The sample World Bank with a renewable share for France too. *)
Definition two_country_net : Net :=
  fun url =>
    if String.eqb url (indicator_url "EG.FEC.RNEW.ZS") then
      page [record "USA" "United States" "2020" (JFloat 10.5);
            record "USA" "United States" "2019" (JFloat 9.5);
            record "FRA" "France" "2020" (JFloat 19.5)]
    else sample_net url.

Definition two_country_run : outcome DataFrame * Log :=
  Eval vm_compute in build_dataset sample_countries two_country_net [].

Definition two_country_dataset : DataFrame :=
  match fst two_country_run with
  | Returns df => df
  | _ => mkDataFrame false [] []
  end.

(** A stand-in for the fitted model: it repeats the last observed
    value for every step. *)
Definition naive_forecast (s : Series) (steps : Z) : outcome (list float) :=
  Returns (repeat (snd (List.last s (0, nan))) (Z.to_nat steps)).


(** A World Bank with integer pages for energy use and population and
    no observation at all for GDP per capita. *)
Definition empty_gdp_net : Net :=
  fun url =>
    if String.eqb url (indicator_url "NY.GDP.PCAP.KD") then page []
    else integer_net url.

(** The frames the four fetches return on the sample World Bank. *)
Definition sample_fetch : outcome (list IndicatorFrame) * Log :=
  Eval vm_compute in mapM fetch_indicator indicators sample_net [].

Definition sample_fetched : list IndicatorFrame :=
  match fst sample_fetch with
  | Returns frames => frames
  | _ => []
  end.

(** The order of join keys: by country code, then country name, then
    year. *)
Definition key_lt (a b : Key) : Prop := key_compare a b = Lt.

Definition key_le (a b : Key) : Prop := key_compare a b <> Gt.

(** The join key of a fetched row. *)
Definition obs_join_key (o : ObsRow) : json * json * Z :=
  (obs_country_code o, obs_country o, obs_year o).

(* ================================================================== *)
(** ** [main]: the latest year *)
(* ================================================================== *)

(** [dataset["year"].max()]; NaN, here [None], for a table without
    rows. *)
Definition latest_year (dataset : DataFrame) : option Z :=
  match rows dataset with
  | [] => None
  | r :: l => Some (fold_left Z.max (map year l) (year r))
  end.

(** [dataset[dataset["year"] == latest_year]]: no year equals NaN. *)
Definition latest_data (dataset : DataFrame) : outcome DataFrame :=
  if keyed dataset then
    Returns (select (fun r => match latest_year dataset with
                              | Some y => year r =? y
                              | None => false
                              end) dataset)
  else Raises KeyError.

(** The latest-year table of the run with two countries. *)
Definition two_country_latest : DataFrame :=
  Eval vm_compute in
    match latest_data two_country_dataset with
    | Returns df => df
    | _ => mkDataFrame false [] []
    end.

(* ================================================================== *)
(** ** [plot_line_trends] *)
(* ================================================================== *)

(** Insertion into an increasing list of distinct country codes. *)
Fixpoint insert_code (c : string) (l : list string) : list string :=
  match l with
  | [] => [c]
  | c' :: l' =>
      match String.compare c c' with
      | Lt => c :: l
      | Eq => l
      | Gt => c' :: insert_code c l'
      end
  end.

(** The group keys of [df.groupby("country_code")]: the distinct codes
    in ascending order. *)
Definition group_codes (df : DataFrame) : list string :=
  fold_right insert_code [] (map country_code (rows df)).

Definition is_key_column (name : string) : bool :=
  mem name ["country_code"; "country"; "year"].

(** One line of the chart: its label and its (year, value) points in
    the order they are drawn. *)
Definition Line : Type := string * list (Z * float).

(** The [plt.plot] calls of the loop, in order: one per group, the
    group's rows in table order.  (A key column as [value_col] is not a
    value column of the model.) *)
Definition plot_line_trends (df : DataFrame) (value_col : string) : outcome (list Line) :=
  if keyed df then
    for_each
      (fun code =>
         let group := filter (fun r => String.eqb (country_code r) code) (rows df) in
         if is_key_column value_col then Unmodelled
         else
           match col_index value_col (columns df) with
           | Some i => Returns (code, map (fun r => (year r, cell_at i r)) group)
           | None => Raises KeyError
           end)
      (group_codes df)
  else Raises KeyError.

(* ================================================================== *)
(** ** [plot_scatter_clusters] *)
(* ================================================================== *)


Section Clusters.

(** [Series.mean] and [Series.std] of pandas, and
    [KMeans(n_clusters, n_init=10, random_state=42).fit_predict]. *)
Variable series_mean : list float -> float.
Variable series_std : list float -> float.
Variable fit_predict : list (float * float) -> Z -> outcome (list Z).




End Clusters.


(* ================================================================== *)
(** ** Outcomes and loops *)
(* ================================================================== *)

Lemma for_each_Forall2 {A B} (f : A -> outcome B) (l : list A) (ys : list B) :
  for_each f l = Returns ys -> Forall2 (fun x y => f x = Returns y) l ys.
Proof.
  revert ys; induction l as [|x l IH]; simpl; intros ys H.
  - injection H as <-. constructor.
  - destruct (f x) as [y| |] eqn:Hx; simpl in H; try discriminate.
    destruct (for_each f l) as [ys'| |] eqn:Hl; simpl in H; try discriminate.
    injection H as <-. constructor; auto.
Qed.

Lemma Forall2_for_each {A B} (f : A -> outcome B) (l : list A) (ys : list B) :
  Forall2 (fun x y => f x = Returns y) l ys -> for_each f l = Returns ys.
Proof.
  induction 1 as [|x y l ys Hx _ IH]; simpl; [reflexivity|].
  rewrite Hx; simpl. rewrite IH. reflexivity.
Qed.

(** A loop over a list with a raising element raises, provided no
    element leaves the model. *)
Lemma for_each_raises {A B} (f : A -> outcome B) (l : list A) (x : A) :
  In x l ->
  (exists e, f x = Raises e) ->
  (forall y, f y <> Unmodelled) ->
  exists e, for_each f l = Raises e.
Proof.
  intros Hin [e He] Hmod.
  induction l as [|a l IH]; simpl in *; [contradiction|].
  destruct (f a) as [y|e'|] eqn:Ha; simpl.
  - destruct Hin as [->|Hin]; [congruence|].
    destruct (IH Hin) as [e'' ->]. simpl. eauto.
  - eauto.
  - exfalso. eapply Hmod; eauto.
Qed.

Lemma getitem_key_modelled v k : getitem_key v k <> Unmodelled.
Proof. destruct v; simpl; try discriminate. destruct (lookup k d); discriminate. Qed.

Lemma py_int_modelled v : py_int v <> Unmodelled.
Proof.
  destruct v; simpl; try discriminate.
  - unfold int_of_float. destruct (Prim2SF f); discriminate.
  - destruct (int_of_string s); discriminate.
Qed.

Lemma row_of_record_modelled rec : row_of_record rec <> Unmodelled.
Proof.
  unfold row_of_record.
  destruct (getitem_key rec "countryiso3code") eqn:H1; simpl; try discriminate;
    [|now apply getitem_key_modelled in H1].
  destruct (getitem_key rec "country") eqn:H2; simpl; try discriminate;
    [|now apply getitem_key_modelled in H2].
  destruct (getitem_key a0 "value") eqn:H3; simpl; try discriminate;
    [|now apply getitem_key_modelled in H3].
  destruct (getitem_key rec "date") eqn:H4; simpl; try discriminate;
    [|now apply getitem_key_modelled in H4].
  destruct (py_int a2) eqn:H5; simpl; try discriminate;
    [|now apply py_int_modelled in H5].
  destruct (getitem_key rec "value") eqn:H6; simpl; try discriminate.
  now apply getitem_key_modelled in H6.
Qed.

(** The loop body raises on an object without a field. *)
Lemma row_of_record_lacks_field rec :
  lacks_field rec -> exists e, row_of_record rec = Raises e.
Proof.
  destruct rec; simpl; try contradiction.
  unfold row_of_record; simpl.
  intros [H|[H|[[c [H H']]|[H|H]]]].
  - rewrite H; simpl; eauto.
  - destruct (lookup "countryiso3code" d); simpl; eauto.
    rewrite H; simpl; eauto.
  - destruct (lookup "countryiso3code" d); simpl; eauto.
    rewrite H; simpl. rewrite H'; simpl; eauto.
  - destruct (lookup "countryiso3code" d); simpl; eauto.
    destruct (lookup "country" d) as [c|]; simpl; eauto.
    destruct (getitem_key c "value") eqn:Hc; simpl; eauto.
    + rewrite H; simpl; eauto.
    + now apply getitem_key_modelled in Hc.
  - destruct (lookup "countryiso3code" d); simpl; eauto.
    destruct (lookup "country" d) as [c|]; simpl; eauto.
    destruct (getitem_key c "value") eqn:Hc; simpl; eauto;
      [|now apply getitem_key_modelled in Hc].
    destruct (lookup "date" d) as [dt|]; simpl; eauto.
    destruct (py_int dt) eqn:Hd; simpl; eauto;
      [|now apply py_int_modelled in Hd].
    rewrite H; simpl; eauto.
Qed.

(** The loop body raises on an object whose date is a string that is no
    integer numeral. *)
Lemma row_of_record_bad_date d s :
  lookup "date" d = Some (JStr s) ->
  int_of_string s = None ->
  exists e, row_of_record (JDict d) = Raises e.
Proof.
  intros Hd Hs. unfold row_of_record; simpl.
  destruct (lookup "countryiso3code" d); simpl; eauto.
  destruct (lookup "country" d) as [c|]; simpl; eauto.
  destruct (getitem_key c "value") eqn:Hc; simpl; eauto;
    [|now apply getitem_key_modelled in Hc].
  rewrite Hd; simpl. rewrite Hs; simpl. eauto.
Qed.

(** What a fetch does, in one equation: one request is logged, and the
    response decides the outcome. *)
Lemma fetch_indicator_run indicator net log :
  fetch_indicator indicator net log =
  (match net (indicator_url indicator) with
   | Some response =>
       obind (rows_of_response response)
             (fun rows => Returns (mkIndicatorFrame indicator rows))
   | None => Raises ConnectionError
   end, log ++ [indicator_url indicator]).
Proof.
  unfold fetch_indicator, bind, requests.get, lift, ret.
  destruct (net (indicator_url indicator)) as [r|]; [|reflexivity].
  destruct (rows_of_response r); reflexivity.
Qed.

Lemma rows_of_response_records response meta recs rest :
  json_body response = Some (JList (meta :: JList recs :: rest)) ->
  rows_of_response response =
  obind (requests.raise_for_status response) (fun _ => for_each row_of_record recs).
Proof.
  intros Hb. unfold rows_of_response, requests.json. rewrite Hb. reflexivity.
Qed.

Lemma chars_single_raise s i x :
  nth_error (chars s) i = Some x ->
  exists e, obind (iter x) (for_each row_of_record) = Raises e.
Proof.
  unfold chars. intros H.
  apply nth_error_In in H. apply in_map_iff in H as [c [<- _]].
  simpl. eauto.
Qed.

Lemma malformed_raises response :
  malformed response -> exists e, rows_of_response response = Raises e.
Proof.
  intros [Hs|[[j [Hb Hj]]|[meta [recs [rest [rec [Hb [Hin Hf]]]]]]]].
  - unfold rows_of_response, requests.raise_for_status. rewrite Hs. simpl. eauto.
  - unfold rows_of_response, requests.json. rewrite Hb.
    destruct (requests.raise_for_status response) as [[]| |] eqn:Hr; simpl; eauto.
    + destruct j; try (simpl; eauto; fail).
      * unfold getitem_index.
        destruct (nth_error (chars s) 1) eqn:Hn; [|simpl; eauto].
        cbn [obind]. eapply chars_single_raise; eauto.
      * simpl in Hj. destruct l as [|a [|b l]]; simpl in *; eauto; lia.
    + unfold requests.raise_for_status in Hr.
      destruct (requests.is_error_status _); discriminate.
  - rewrite (rows_of_response_records _ _ _ _ Hb).
    destruct (requests.raise_for_status response) as [[]| |] eqn:Hr; simpl; eauto.
    + eapply for_each_raises; eauto using row_of_record_lacks_field, row_of_record_modelled.
    + unfold requests.raise_for_status in Hr.
      destruct (requests.is_error_status _); discriminate.
Qed.

Lemma row_of_record_key rec o :
  row_of_record rec = Returns o -> record_key rec = Some (obs_key o).
Proof.
  unfold row_of_record, record_key, obs_key.
  destruct (getitem_key rec "countryiso3code") as [code| |]; simpl; try discriminate.
  destruct (getitem_key rec "country") as [c| |]; simpl; try discriminate.
  destruct (getitem_key c "value") as [name| |]; simpl; try discriminate.
  destruct (getitem_key rec "date") as [d| |]; simpl; try discriminate.
  destruct (py_int d) as [y| |]; simpl; try discriminate.
  destruct (getitem_key rec "value") as [v| |]; simpl; try discriminate.
  intros H; injection H as <-. reflexivity.
Qed.

Lemma Forall2_record_keys recs obs :
  Forall2 (fun rec o => row_of_record rec = Returns o) recs obs ->
  map record_key recs = map Some (map obs_key obs).
Proof.
  induction 1 as [|rec o recs obs H _ IH]; simpl; [reflexivity|].
  rewrite (row_of_record_key _ _ H), IH. reflexivity.
Qed.

(* ================================================================== *)
(** ** Properties of [fetch_indicator] *)
(* ================================================================== *)

(** C5.  When the second element of the decoded response is the list
    holding the single observation object for (USA, United States,
    "2020", 331000000), the fetch returns exactly one row: country code
    USA, country United States, year the integer 2020, value 331000000;
    one request was made. *)
Theorem fetch_population_scenario indicator net log response meta rest :
  net (indicator_url indicator) = Some response ->
  requests.is_error_status (status_code response) = false ->
  json_body response = Some (JList (meta :: JList [usa_2020_population] :: rest)) ->
  fetch_indicator indicator net log =
  (Returns (mkIndicatorFrame indicator
              [mkObsRow (JStr "USA") (JStr "United States") 2020 (JInt 331000000)]),
   log ++ [indicator_url indicator]).
Proof.
  intros Hnet Hs Hb.
  rewrite fetch_indicator_run, Hnet.
  rewrite (rows_of_response_records _ _ _ _ Hb).
  unfold requests.raise_for_status. rewrite Hs. reflexivity.
Qed.

Lemma fetch_population_scenario_witness :
  fetch_indicator "SP.POP.TOTL" population_net [] =
  (Returns (mkIndicatorFrame "SP.POP.TOTL"
              [mkObsRow (JStr "USA") (JStr "United States") 2020 (JInt 331000000)]),
   [] ++ [indicator_url "SP.POP.TOTL"]).
Proof.
  apply (fetch_population_scenario "SP.POP.TOTL" population_net []
           (mkResponse 200 (Some (JList [JNull; JList [usa_2020_population]])))
           JNull []); reflexivity.
Defined.

(** C8 as stated fails: a status that is no success status and no
    error status either (300 here; 199 and 600 alike) does not stop the
    fetch, and with a well-formed body it returns a frame. *)
Lemma fetch_returns_on_non_success_status :
  ~ (forall indicator net log response,
        net (indicator_url indicator) = Some response ->
        is_success_status (status_code response) = false ->
        exists e, fetch_indicator indicator net log
                  = (Raises e, log ++ [indicator_url indicator])).
Proof.
  intros H.
  destruct (H "SP.POP.TOTL" multiple_choices_net [] _ eq_refl eq_refl) as [e He].
  vm_compute in He. discriminate He.
Qed.

(** C8, amended.  A fetch whose response has a client or server error
    status (400 to 599), or whose decoded body has no second element,
    or one of whose observation objects lacks a field the loop reads,
    raises an exception: it returns no frame, and exactly one request
    was made (no retry). *)
Theorem fetch_fails_on_malformed_response indicator net log response :
  net (indicator_url indicator) = Some response ->
  malformed response ->
  exists e, fetch_indicator indicator net log
            = (Raises e, log ++ [indicator_url indicator]).
Proof.
  intros Hnet Hm.
  rewrite fetch_indicator_run, Hnet.
  destruct (malformed_raises _ Hm) as [e ->]. simpl. eauto.
Qed.

Lemma fetch_fails_on_malformed_response_witness :
  (exists e, fetch_indicator "SP.POP.TOTL" not_found_net []
             = (Raises e, [] ++ [indicator_url "SP.POP.TOTL"]))
  /\ (exists e, fetch_indicator "SP.POP.TOTL" short_body_net []
                = (Raises e, [] ++ [indicator_url "SP.POP.TOTL"]))
  /\ (exists e, fetch_indicator "SP.POP.TOTL" valueless_net []
                = (Raises e, [] ++ [indicator_url "SP.POP.TOTL"])).
Proof.
  split; [|split].
  - apply (fetch_fails_on_malformed_response "SP.POP.TOTL" not_found_net []
             (mkResponse 404 None)).
    + reflexivity.
    + left. reflexivity.
  - apply (fetch_fails_on_malformed_response "SP.POP.TOTL" short_body_net []
             (mkResponse 200 (Some (JList [JDict [("page", JInt 1)]])))).
    + reflexivity.
    + right. left. eexists. split; [reflexivity|]. simpl. lia.
  - apply (fetch_fails_on_malformed_response "SP.POP.TOTL" valueless_net []
             (mkResponse 200
                (Some (JList [JNull; JList [usa_2020_population; JDict valueless_record]])))).
    + reflexivity.
    + right. right. exists JNull, [usa_2020_population; JDict valueless_record], [],
        (JDict valueless_record).
      split; [reflexivity|]. split; [right; left; reflexivity|].
      simpl. right. right. right. right. reflexivity.
Defined.

(** C9 as stated fails: a response that repeats an observation object
    gives a frame with two rows for one (country_code, year) pair. *)
Lemma fetch_keys_not_unique :
  ~ (forall indicator net log frame log',
        fetch_indicator indicator net log = (Returns frame, log') ->
        NoDup (map obs_key (observations frame))).
Proof.
  intros H.
  specialize (H "SP.POP.TOTL" duplicated_net [] _ _ eq_refl).
  simpl in H. inversion H as [|x l Hnotin _]. apply Hnotin. left. reflexivity.
Qed.

(** C9, amended.  The frame a fetch returns has exactly one row per
    observation object of the response, in response order; so it has at
    most one row per (country_code, year) pair whenever no two
    observation objects share their (countryiso3code, int(date)) pair. *)
Theorem fetch_rows_follow_records indicator net log frame log' :
  fetch_indicator indicator net log = (Returns frame, log') ->
  exists response j records recs,
    net (indicator_url indicator) = Some response
    /\ json_body response = Some j
    /\ getitem_index j 1 = Returns records
    /\ iter records = Returns recs
    /\ Forall2 (fun rec o => row_of_record rec = Returns o) recs (observations frame)
    /\ (NoDup (map record_key recs) -> NoDup (map obs_key (observations frame))).
Proof.
  rewrite fetch_indicator_run.
  destruct (net (indicator_url indicator)) as [response|] eqn:Hnet; [|discriminate].
  intros H. injection H as H _.
  unfold rows_of_response, requests.json in H.
  destruct (requests.raise_for_status response); simpl in H; try discriminate.
  destruct (json_body response) as [j|] eqn:Hj; simpl in H; try discriminate.
  destruct (getitem_index j 1) as [records| |] eqn:Hrec; simpl in H; try discriminate.
  destruct (iter records) as [recs| |] eqn:Hit; simpl in H; try discriminate.
  destruct (for_each row_of_record recs) as [rows| |] eqn:Hrows; simpl in H;
    try discriminate.
  injection H as <-. simpl.
  apply for_each_Forall2 in Hrows.
  exists response, j, records, recs.
  split; [reflexivity|]. split; [assumption|]. split; [assumption|].
  split; [assumption|]. split; [assumption|].
  intros Hnd. rewrite (Forall2_record_keys _ _ Hrows) in Hnd.
  eapply NoDup_map_inv; eauto.
Qed.

(** The run on the renewable-share page of the sample World Bank: four
    observation objects with four different keys give four rows, in
    response order, with four different keys. *)
Lemma fetch_rows_follow_records_witness :
  exists recs,
    recs = [record "USA" "United States" "2020" (JFloat 10.5);
            record "USA" "United States" "2019" (JFloat 9.5);
            record "FRA" "France" "2020" JNull;
            record "WLD" "World" "2020" (JFloat 17.5)]
    /\ Forall2 (fun rec o => row_of_record rec = Returns o) recs
         [obs "USA" "United States" 2020 (JFloat 10.5);
          obs "USA" "United States" 2019 (JFloat 9.5);
          obs "FRA" "France" 2020 JNull;
          obs "WLD" "World" 2020 (JFloat 17.5)]
    /\ NoDup (map record_key recs)
    /\ NoDup (map obs_key
                [obs "USA" "United States" 2020 (JFloat 10.5);
                 obs "USA" "United States" 2019 (JFloat 9.5);
                 obs "FRA" "France" 2020 JNull;
                 obs "WLD" "World" 2020 (JFloat 17.5)]).
Proof.
  destruct (fetch_rows_follow_records "EG.FEC.RNEW.ZS" sample_net []
              (mkIndicatorFrame "EG.FEC.RNEW.ZS"
                 [obs "USA" "United States" 2020 (JFloat 10.5);
                  obs "USA" "United States" 2019 (JFloat 9.5);
                  obs "FRA" "France" 2020 JNull;
                  obs "WLD" "World" 2020 (JFloat 17.5)])
              ([] ++ [indicator_url "EG.FEC.RNEW.ZS"]) eq_refl)
    as [response [j [records [recs [Hnet [Hj [Hrec [Hit [Hrows Hnd]]]]]]]]].
  vm_compute in Hnet. injection Hnet as <-.
  simpl in Hj. injection Hj as <-.
  simpl in Hrec. injection Hrec as <-.
  simpl in Hit. injection Hit as <-.
  assert (Hkeys : NoDup (map record_key
                           [record "USA" "United States" "2020" (JFloat 10.5);
                            record "USA" "United States" "2019" (JFloat 9.5);
                            record "FRA" "France" "2020" JNull;
                            record "WLD" "World" "2020" (JFloat 17.5)])).
  { repeat (constructor; [simpl; intuition discriminate|]). constructor. }
  eexists. split; [reflexivity|]. split; [exact Hrows|]. split; [exact Hkeys|].
  exact (Hnd Hkeys).
Defined.

(** C10.  When an observation object of the response has a "date"
    string that is no integer numeral (a quarterly label such as
    "2020Q1"), the fetch raises and returns no rows, whatever else the
    response holds and even when every field is present. *)
Theorem fetch_fails_on_non_integer_date
        indicator net log response meta recs rest d s :
  net (indicator_url indicator) = Some response ->
  json_body response = Some (JList (meta :: JList recs :: rest)) ->
  In (JDict d) recs ->
  lookup "date" d = Some (JStr s) ->
  int_of_string s = None ->
  exists e, fetch_indicator indicator net log
            = (Raises e, log ++ [indicator_url indicator]).
Proof.
  intros Hnet Hb Hin Hd Hs.
  rewrite fetch_indicator_run, Hnet.
  rewrite (rows_of_response_records _ _ _ _ Hb).
  destruct (requests.raise_for_status response) as [[]| |] eqn:Hr; simpl; eauto.
  - destruct (for_each_raises row_of_record recs (JDict d) Hin) as [e ->];
      eauto using row_of_record_bad_date, row_of_record_modelled.
    simpl. eauto.
  - unfold requests.raise_for_status in Hr.
    destruct (requests.is_error_status _); discriminate.
Qed.

Lemma fetch_fails_on_non_integer_date_witness :
  exists e, fetch_indicator "SP.POP.TOTL" quarterly_net []
            = (Raises e, [] ++ [indicator_url "SP.POP.TOTL"]).
Proof.
  apply (fetch_fails_on_non_integer_date "SP.POP.TOTL" quarterly_net []
           (mkResponse 200
              (Some (JList [JNull; JList [usa_2020_population; JDict quarterly_record]])))
           JNull [usa_2020_population; JDict quarterly_record] []
           quarterly_record "2020Q1").
  - reflexivity.
  - reflexivity.
  - right. left. reflexivity.
  - reflexivity.
  - reflexivity.
Defined.

(* ================================================================== *)
(** ** float64: missing values, products and quotients *)
(* ================================================================== *)

Lemma is_nan_spec x : is_nan x = true <-> Prim2SF x = S754_nan.
Proof.
  unfold is_nan. rewrite eqb_spec.
  destruct (Prim2SF x) as [s|s| |s m e]; unfold SFeqb; simpl.
  - split; discriminate.
  - destruct s; split; discriminate.
  - split; reflexivity.
  - rewrite Z.compare_refl, Pos.compare_cont_refl.
    destruct s; split; discriminate.
Qed.

Lemma is_zero_spec x : is_zero x = true <-> exists s, Prim2SF x = S754_zero s.
Proof.
  unfold is_zero. rewrite eqb_spec.
  change (Prim2SF zero) with (S754_zero false).
  destruct (Prim2SF x) as [s|s| |s m e]; unfold SFeqb; simpl.
  - split; eauto.
  - destruct s; split; try discriminate; intros [s' H]; discriminate.
  - split; try discriminate; intros [s' H]; discriminate.
  - destruct s; split; try discriminate; intros [s' H]; discriminate.
Qed.

Lemma is_infinity_spec x : is_infinity x = true <-> exists s, Prim2SF x = S754_infinity s.
Proof.
  unfold is_infinity. rewrite eqb_spec, abs_spec.
  change (Prim2SF infinity) with (S754_infinity false).
  destruct (Prim2SF x) as [s|s| |s m e]; unfold SFeqb; simpl.
  - split; try discriminate; intros [s' H]; discriminate.
  - split; eauto.
  - split; try discriminate; intros [s' H]; discriminate.
  - split; try discriminate; intros [s' H]; discriminate.
Qed.

Lemma isna_mul_r e p : isna p = true -> isna (e * p)%float = true.
Proof.
  unfold isna. rewrite !is_nan_spec, mul_spec. intros ->.
  unfold SF64mul, SFmul. destruct (Prim2SF e); reflexivity.
Qed.

Lemma isna_div_r e g : isna g = true -> isna (e / g)%float = true.
Proof.
  unfold isna. rewrite !is_nan_spec, div_spec. intros ->.
  unfold SF64div, SFdiv. destruct (Prim2SF e); reflexivity.
Qed.

(** The quotient by zero: NaN for zero over zero, an infinity for any
    other number. *)
Lemma div_by_zero e g :
  is_zero g = true ->
  isna e = false ->
  (is_zero e = true -> isna (e / g)%float = true)
  /\ (is_zero e = false -> is_infinity (e / g)%float = true).
Proof.
  unfold isna. intros Hg He.
  apply is_zero_spec in Hg as [sg Hg].
  assert (Hn : Prim2SF e <> S754_nan).
  { intros H. apply is_nan_spec in H. congruence. }
  split; intros Hz.
  - apply is_zero_spec in Hz as [se Hz].
    apply is_nan_spec. rewrite div_spec, Hz, Hg. reflexivity.
  - apply is_infinity_spec. rewrite div_spec, Hg.
    destruct (Prim2SF e) as [s|s| |s m x] eqn:E; unfold SF64div, SFdiv; eauto.
    + assert (is_zero e = true) by (apply is_zero_spec; eauto). congruence.
    + contradiction.
Qed.

(* ================================================================== *)
(** ** Keys and the outer join *)
(* ================================================================== *)

Lemma string_compare_refl s : String.compare s s = Eq.
Proof.
  pose proof (String.compare_antisym s s) as H.
  destruct (String.compare s s); simpl in H; congruence.
Qed.

Lemma key_compare_eq a b : key_compare a b = Eq <-> a = b.
Proof.
  destruct a as [[c1 n1] y1], b as [[c2 n2] y2]; simpl. split.
  - destruct (String.compare c1 c2) eqn:Hc; try discriminate.
    destruct (String.compare n1 n2) eqn:Hn; try discriminate.
    intros Hy. apply String.compare_eq_iff in Hc, Hn.
    apply Z.compare_eq in Hy. subst. reflexivity.
  - intros H. injection H as -> -> ->.
    rewrite !string_compare_refl. apply Z.compare_refl.
Qed.

Lemma has_key_iff k r : has_key k r = true <-> k = key_of r.
Proof.
  unfold has_key, key_eqb.
  destruct (key_compare k (key_of r)) eqn:H.
  - apply key_compare_eq in H. tauto.
  - split; [discriminate|]. intros E. apply key_compare_eq in E. congruence.
  - split; [discriminate|]. intros E. apply key_compare_eq in E. congruence.
Qed.

Lemma in_insert_key x k l : In x (insert_key k l) <-> x = k \/ In x l.
Proof.
  induction l as [|a l IH]; simpl.
  - intuition.
  - destruct (key_compare k a) eqn:H; simpl.
    + apply key_compare_eq in H. subst. intuition.
    + intuition.
    + rewrite IH. intuition.
Qed.

Lemma in_sorted_keys x ks : In x (sorted_keys ks) <-> In x ks.
Proof.
  induction ks as [|k ks IH]; simpl; [tauto|].
  rewrite in_insert_key, IH. intuition.
Qed.

Lemma in_filter_key k r l :
  In r (filter (has_key k) l) <-> In r l /\ key_of r = k.
Proof.
  rewrite filter_In, has_key_iff. intuition.
Qed.

(** Where a row of the join for one key comes from. *)
Lemma rows_for_key_inv nl nr L R k r :
  In r (rows_for_key nl nr L R k) ->
  (exists a b, In a L /\ In b R /\ key_of a = k /\ key_of b = k /\ r = join_rows a b)
  \/ (exists a, In a L /\ key_of a = k
                /\ (forall b, In b R -> key_of b <> k) /\ r = left_only nr a)
  \/ (exists b, In b R /\ key_of b = k
                /\ (forall a, In a L -> key_of a <> k) /\ r = right_only nl b).
Proof.
  unfold rows_for_key.
  destruct (filter (has_key k) L) as [|a0 ls] eqn:HL.
  - intros H. apply in_map_iff in H as [b [<- Hb]].
    apply in_filter_key in Hb as [Hb Hk].
    right; right. exists b. repeat split; auto.
    intros a Ha Hka.
    assert (Hin : In a (filter (has_key k) L)) by (apply in_filter_key; auto).
    rewrite HL in Hin. contradiction.
  - destruct (filter (has_key k) R) as [|b0 rs] eqn:HR.
    + intros H. apply in_map_iff in H as [a [<- Ha]].
      rewrite <- HL in Ha. apply in_filter_key in Ha as [Ha Hk].
      right; left. exists a. repeat split; auto.
      intros b Hb Hkb.
      assert (Hin : In b (filter (has_key k) R)) by (apply in_filter_key; auto).
      rewrite HR in Hin. contradiction.
    + intros H. apply in_flat_map in H as [a [Ha H]].
      apply in_map_iff in H as [b [<- Hb]].
      rewrite <- HL in Ha. rewrite <- HR in Hb.
      apply in_filter_key in Ha as [Ha Hka]. apply in_filter_key in Hb as [Hb Hkb].
      left. exists a, b. auto.
Qed.

Lemma rows_for_key_left nl nr L R a :
  In a L ->
  exists r, In r (rows_for_key nl nr L R (key_of a)) /\ key_of r = key_of a.
Proof.
  intros Ha. unfold rows_for_key.
  assert (Hin : In a (filter (has_key (key_of a)) L)) by (apply in_filter_key; auto).
  destruct (filter (has_key (key_of a)) L) as [|a0 ls]; [contradiction|].
  destruct (filter (has_key (key_of a)) R) as [|b0 rs].
  - exists (left_only nr a). split; [|reflexivity].
    apply in_map. exact Hin.
  - exists (join_rows a b0). split; [|reflexivity].
    apply in_flat_map. exists a. split; [exact Hin|]. left. reflexivity.
Qed.

Lemma rows_for_key_right nl nr L R b :
  In b R ->
  exists r, In r (rows_for_key nl nr L R (key_of b)) /\ key_of r = key_of b.
Proof.
  intros Hb. unfold rows_for_key.
  assert (Hin : In b (filter (has_key (key_of b)) R)) by (apply in_filter_key; auto).
  destruct (filter (has_key (key_of b)) L) as [|a0 ls] eqn:HL.
  - exists (right_only nl b). split; [|reflexivity].
    apply in_map. exact Hin.
  - assert (Ha0 : key_of a0 = key_of b).
    { assert (H : In a0 (filter (has_key (key_of b)) L)) by (rewrite HL; left; reflexivity).
      apply in_filter_key in H. tauto. }
    destruct (filter (has_key (key_of b)) R) as [|b0 rs]; [contradiction|].
    exists (join_rows a0 b). split; [|exact Ha0].
    apply in_flat_map. exists a0. split; [left; reflexivity|].
    apply in_map. exact Hin.
Qed.

Lemma outer_join_inv nl nr L R r :
  In r (outer_join nl nr L R) ->
  (exists a b, In a L /\ In b R /\ key_of a = key_of b /\ r = join_rows a b)
  \/ (exists a, In a L /\ (forall b, In b R -> key_of b <> key_of a)
                /\ r = left_only nr a)
  \/ (exists b, In b R /\ (forall a, In a L -> key_of a <> key_of b)
                /\ r = right_only nl b).
Proof.
  unfold outer_join. intros H. apply in_flat_map in H as [k [_ H]].
  apply rows_for_key_inv in H
    as [[a [b [Ha [Hb [Hka [Hkb ->]]]]]]|[[a [Ha [Hk [Hno ->]]]]|[b [Hb [Hk [Hno ->]]]]]].
  - left. exists a, b. repeat split; auto. congruence.
  - right; left. exists a. repeat split; auto. rewrite Hk. auto.
  - right; right. exists b. repeat split; auto. rewrite Hk. auto.
Qed.

Lemma outer_join_left nl nr L R a :
  In a L -> exists r, In r (outer_join nl nr L R) /\ key_of r = key_of a.
Proof.
  intros Ha. destruct (rows_for_key_left nl nr L R a Ha) as [r [Hr Hk]].
  exists r. split; [|exact Hk].
  apply in_flat_map. exists (key_of a). split; [|exact Hr].
  apply in_sorted_keys, in_or_app. left. apply in_map. exact Ha.
Qed.

Lemma outer_join_right nl nr L R b :
  In b R -> exists r, In r (outer_join nl nr L R) /\ key_of r = key_of b.
Proof.
  intros Hb. destruct (rows_for_key_right nl nr L R b Hb) as [r [Hr Hk]].
  exists r. split; [|exact Hk].
  apply in_flat_map. exists (key_of b). split; [|exact Hr].
  apply in_sorted_keys, in_or_app. right. apply in_map. exact Hb.
Qed.

(** *** int64 and float64 cells *)

Lemma shr_1_nonneg mrs : 0 <= shr_m mrs -> 0 <= shr_m (shr_1 mrs).
Proof.
  destruct mrs as [m r s]. destruct m as [|p|p]; simpl; intros H; try lia.
  destruct p; simpl; lia.
Qed.

Lemma iter_pos_nonneg p : forall mrs,
  0 <= shr_m mrs -> 0 <= shr_m (SpecFloat.iter_pos shr_1 p mrs).
Proof.
  induction p as [p IH|p IH|]; intros mrs H; simpl; auto using shr_1_nonneg.
Qed.

Lemma shr_fexp_nonneg prec emax m e l :
  0 <= m -> 0 <= shr_m (fst (shr_fexp prec emax m e l)).
Proof.
  intros H. unfold shr_fexp, shr.
  assert (H0 : 0 <= shr_m (shr_record_of_loc m l)).
  { destruct l as [|[]]; simpl; exact H. }
  destruct (fexp prec emax (Zdigits2 m + e) - e); simpl; auto using iter_pos_nonneg.
Qed.

Lemma round_nearest_even_nonneg m l : 0 <= m -> 0 <= round_nearest_even m l.
Proof.
  intros H. unfold round_nearest_even.
  destruct l as [|[]]; try lia. destruct (IntDef.Z.even m); lia.
Qed.

Lemma binary_round_aux_not_nan prec emax s m e l :
  0 <= m -> binary_round_aux prec emax s m e l <> S754_nan.
Proof.
  intros H. unfold binary_round_aux.
  pose proof (shr_fexp_nonneg prec emax m e l H) as H1.
  destruct (shr_fexp prec emax m e l) as [mrs' e']. simpl in H1.
  pose proof (shr_fexp_nonneg prec emax _ e' loc_Exact
                (round_nearest_even_nonneg _ (loc_of_shr_record mrs') H1)) as H2.
  destruct (shr_fexp prec emax (round_nearest_even (shr_m mrs') (loc_of_shr_record mrs'))
              e' loc_Exact) as [mrs'' e'']. simpl in H2.
  destruct (shr_m mrs''); try lia; try discriminate.
  destruct (e'' <=? emax - prec); discriminate.
Qed.

Lemma of_uint63_not_nan n : Prim2SF (of_uint63 n) <> S754_nan.
Proof.
  rewrite of_uint63_spec. unfold binary_normalize.
  destruct (Uint63Axioms.to_Z n); try discriminate; unfold binary_round;
    destruct (shl_align _ _ _); apply binary_round_aux_not_nan; lia.
Qed.

(** An integer is never the missing-value marker. *)
Lemma float_of_Z_not_nan z : is_nan (float_of_Z z) = false.
Proof.
  unfold float_of_Z. destruct (z =? - 2 ^ 63); [reflexivity|].
  apply not_true_iff_false. rewrite is_nan_spec.
  destruct (z <? 0).
  - rewrite opp_spec.
    pose proof (of_uint63_not_nan (Uint63.of_Z (Z.abs z))) as H.
    destruct (Prim2SF (of_uint63 (Uint63.of_Z (Z.abs z)))); simpl; congruence.
  - apply of_uint63_not_nan.
Qed.

Lemma isna_int64 z : isna (to_float (Int64 z)) = false.
Proof. apply float_of_Z_not_nan. Qed.

Lemma promote_idem c : promote (promote c) = promote c.
Proof. reflexivity. Qed.

Lemma wrap64_small z : - 2 ^ 63 <= z < 2 ^ 63 -> wrap64 z = z.
Proof. intros H. unfold wrap64. rewrite Z.mod_small; lia. Qed.

Lemma wrap64_range z : - 2 ^ 63 <= wrap64 z < 2 ^ 63.
Proof.
  unfold wrap64. pose proof (Z.mod_pos_bound (z + 2 ^ 63) (2 ^ 64)). lia.
Qed.

Lemma wrap64_mod z : wrap64 z mod 2 ^ 64 = z mod 2 ^ 64.
Proof.
  unfold wrap64.
  rewrite <- (Zminus_mod_idemp_l ((z + 2 ^ 63) mod 2 ^ 64)).
  rewrite Z.mod_mod by lia. rewrite Zminus_mod_idemp_l.
  f_equal. lia.
Qed.

(** A missing factor makes the product missing, a missing divisor the
    quotient. *)
Lemma isna_cell_mul_r e p :
  isna (to_float p) = true -> isna (to_float (cell_mul e p)) = true.
Proof.
  destruct p as [y|g]; intros H.
  - rewrite isna_int64 in H. discriminate H.
  - destruct e; simpl; apply isna_mul_r; exact H.
Qed.

Lemma isna_cell_div_r e g :
  isna (to_float g) = true -> isna (to_float (cell_div e g)) = true.
Proof. intros H. simpl. apply isna_div_r. exact H. Qed.

(** The product of two columns that are not both int64 is the float64
    product. *)
Lemma cell_mul_float a b :
  (forall x y, ~ (a = Int64 x /\ b = Int64 y)) ->
  cell_mul a b = Float64 (to_float a * to_float b).
Proof.
  destruct a as [x|f], b as [y|g]; intros H; try reflexivity.
  exfalso. apply (H x y). auto.
Qed.

(** *** Cells of joined rows *)

Lemma nth_repeat_nan i n : nth i (repeat (Float64 nan) n) (Float64 nan) = Float64 nan.
Proof.
  revert i; induction n as [|n IH]; intros [|i]; simpl; auto.
Qed.

Lemma exact_at_join_l i a b :
  (i < List.length (cells a))%nat -> exact_at i (join_rows a b) = exact_at i a.
Proof. intros H. unfold exact_at; simpl. apply app_nth1. exact H. Qed.

Lemma exact_at_join_r a b :
  exact_at (List.length (cells a)) (join_rows a b) = exact_at 0 b.
Proof.
  unfold exact_at; simpl. rewrite app_nth2 by lia. rewrite Nat.sub_diag. reflexivity.
Qed.

Lemma exact_at_left_only_l i nr a :
  (i < List.length (cells a))%nat -> exact_at i (left_only nr a) = exact_at i a.
Proof. intros H. unfold exact_at; simpl. apply app_nth1. exact H. Qed.

Lemma exact_at_left_only_r nr a :
  exact_at (List.length (cells a)) (left_only nr a) = Float64 nan.
Proof.
  unfold exact_at; simpl. rewrite app_nth2 by lia. apply nth_repeat_nan.
Qed.

Lemma exact_at_right_only_l i nl b :
  (i < nl)%nat -> exact_at i (right_only nl b) = Float64 nan.
Proof.
  intros H. unfold exact_at; simpl.
  rewrite app_nth1 by (rewrite repeat_length; exact H). apply nth_repeat_nan.
Qed.

Lemma exact_at_right_only_r nl b :
  exact_at nl (right_only nl b) = exact_at 0 b.
Proof.
  unfold exact_at; simpl.
  rewrite app_nth2 by (rewrite repeat_length; lia).
  rewrite repeat_length, Nat.sub_diag. reflexivity.
Qed.

(** *** Rows made float64 by a join *)

Lemma exact_at_as_float64 i r : exact_at i (as_float64 r) = promote (exact_at i r).
Proof.
  unfold exact_at, as_float64; simpl.
  change (Float64 nan) with (promote (Float64 nan)) at 1. apply map_nth.
Qed.

Lemma lifted_key a a' : lifted a a' -> key_of a' = key_of a.
Proof. intros [->| ->]; reflexivity. Qed.

Lemma lifted_length a a' : lifted a a' -> List.length (cells a') = List.length (cells a).
Proof.
  intros [->| ->]; [reflexivity|]. unfold as_float64; simpl. apply length_map.
Qed.

Lemma lifted_exact a a' i :
  lifted a a' ->
  exact_at i a' = exact_at i a \/ exact_at i a' = promote (exact_at i a).
Proof.
  intros [->| ->]; [left; reflexivity|right; apply exact_at_as_float64].
Qed.

Lemma lift_rows_keys (b : bool) l :
  map key_of (if b then map as_float64 l else l) = map key_of l.
Proof. destruct b; [|reflexivity]. rewrite map_map. reflexivity. Qed.

Lemma in_lift_rows (b : bool) l a' :
  In a' (if b then map as_float64 l else l) -> exists a, In a l /\ lifted a a'.
Proof.
  destruct b; intros H.
  - apply in_map_iff in H as [a [<- Ha]]. exists a. split; [exact Ha|right; reflexivity].
  - exists a'. split; [exact H|left; reflexivity].
Qed.

Lemma lift_rows_in (b : bool) l a :
  In a l -> exists a', In a' (if b then map as_float64 l else l) /\ lifted a a'.
Proof.
  destruct b; intros H.
  - exists (as_float64 a). split; [apply in_map; exact H|right; reflexivity].
  - exists a. split; [exact H|left; reflexivity].
Qed.

Lemma same_value_promote c v : same_value c v -> same_value (promote c) v.
Proof. intros [->| ->]; right; reflexivity. Qed.

(** A result row reflects a table as the row it was built from does. *)
Lemma cell_from_ext t i a r :
  key_of r = key_of a ->
  exact_at i r = exact_at i a \/ exact_at i r = promote (exact_at i a) ->
  cell_from t i a -> cell_from t i r.
Proof.
  unfold cell_from. intros Hk Hc [[o [Ho [Hko Hv]]]|[Hno Hv]].
  - left. exists o. split; [exact Ho|]. split; [congruence|].
    destruct Hc as [->| ->]; [exact Hv|apply same_value_promote; exact Hv].
  - right. split; [intros o Ho; rewrite Hk; auto|].
    destruct Hc as [->| ->]; [exact Hv|rewrite Hv; reflexivity].
Qed.

Lemma in_keys k t : In k (keys t) <-> exists r, In r (rows t) /\ key_of r = k.
Proof.
  unfold keys. rewrite in_map_iff. split; intros [r H]; exists r; tauto.
Qed.

(** *** The join as a fold *)

Lemma joined_start t : single_column t -> joined [t] t.
Proof.
  intros [Hk [Hc Hr]]. repeat split; auto.
  - intros H. exists t. split; [left; reflexivity|exact H].
  - intros [t' [[<-|[]] H]]. exact H.
  - intros r i t' Hin Hn.
    destruct i as [|i]; simpl in Hn; [|destruct i; discriminate].
    injection Hn as <-. left. exists r. split; [exact Hin|].
    split; [reflexivity|left; reflexivity].
Qed.

Lemma joined_step done acc t :
  joined done acc -> single_column t ->
  exists acc', merge acc t = Returns acc' /\ joined (done ++ [t]) acc'.
Proof.
  intros [Hk [Hc [Hr [Hkeys Hcells]]]] [Hk' [Hc' Hr']].
  unfold merge. rewrite Hk, Hk'. simpl.
  set (L := if unmatched (rows t) (rows acc)
            then map as_float64 (rows acc) else rows acc).
  set (R := if unmatched (rows acc) (rows t)
            then map as_float64 (rows t) else rows t).
  eexists. split; [reflexivity|].
  rewrite Hc, Hc'.
  assert (HL : forall a', In a' L -> exists a, In a (rows acc) /\ lifted a a')
    by (intros a'; apply in_lift_rows).
  assert (HR : forall b', In b' R -> exists b, In b (rows t) /\ lifted b b')
    by (intros b'; apply in_lift_rows).
  assert (HL' : forall a, In a (rows acc) -> exists a', In a' L /\ lifted a a')
    by (intros a; apply lift_rows_in).
  assert (HR' : forall b, In b (rows t) -> exists b', In b' R /\ lifted b b')
    by (intros b; apply lift_rows_in).
  assert (Hlen : forall a', In a' L -> List.length (cells a') = List.length done).
  { intros a' Ha'. destruct (HL _ Ha') as [a [Ha Hl]].
    rewrite (lifted_length _ _ Hl). rewrite Forall_forall in Hr. auto. }
  assert (Hlen' : forall b', In b' R -> List.length (cells b') = 1%nat).
  { intros b' Hb'. destruct (HR _ Hb') as [b [Hb Hl]].
    rewrite (lifted_length _ _ Hl). rewrite Forall_forall in Hr'. auto. }
  assert (HkL : forall a', In a' L -> In (key_of a') (keys acc)).
  { intros a' Ha'. destruct (HL _ Ha') as [a [Ha Hl]].
    rewrite (lifted_key _ _ Hl). apply in_keys. eauto. }
  assert (HkR : forall b', In b' R -> In (key_of b') (keys t)).
  { intros b' Hb'. destruct (HR _ Hb') as [b [Hb Hl]].
    rewrite (lifted_key _ _ Hl). apply in_keys. eauto. }
  clearbody L R.
  unfold joined; simpl. split; [reflexivity|]. split; [|split; [|split]].
  - unfold merge_columns. rewrite !length_app, !length_map. simpl. lia.
  - apply Forall_forall. intros r Hin.
    rewrite length_app; simpl.
    apply outer_join_inv in Hin
      as [[a [b [Ha [Hb [_ ->]]]]]|[[a [Ha [_ ->]]]|[b [Hb [_ ->]]]]]; simpl;
      rewrite length_app, ?repeat_length.
    + rewrite (Hlen _ Ha), (Hlen' _ Hb). reflexivity.
    + rewrite (Hlen _ Ha). reflexivity.
    + rewrite (Hlen' _ Hb). reflexivity.
  - intros k. unfold keys at 1; simpl. split.
    + intros Hin. apply in_map_iff in Hin as [r [<- Hin]].
      apply outer_join_inv in Hin
        as [[a [b [Ha [Hb [_ ->]]]]]|[[a [Ha [_ ->]]]|[b [Hb [_ ->]]]]].
      * apply HkL, Hkeys in Ha as [t' [Ht' H]].
        exists t'. split; [apply in_or_app; auto|exact H].
      * apply HkL, Hkeys in Ha as [t' [Ht' H]].
        exists t'. split; [apply in_or_app; auto|exact H].
      * exists t. split; [apply in_or_app; right; left; reflexivity|].
        exact (HkR _ Hb).
    + intros [t' [Ht' Hin]]. apply in_app_or in Ht' as [Ht'|[<-|[]]].
      * assert (H : In k (keys acc)) by (apply Hkeys; eauto).
        apply in_keys in H as [a [Ha <-]].
        destruct (HL' _ Ha) as [a' [Ha' Hl]].
        destruct (outer_join_left (List.length done) 1 L R a' Ha')
          as [r [Hr0 Hkr]].
        apply in_map_iff. exists r. split; [|exact Hr0].
        rewrite Hkr. apply lifted_key. exact Hl.
      * apply in_keys in Hin as [b [Hb <-]].
        destruct (HR' _ Hb) as [b' [Hb' Hl]].
        destruct (outer_join_right (List.length done) 1 L R b' Hb')
          as [r [Hr0 Hkr]].
        apply in_map_iff. exists r. split; [|exact Hr0].
        rewrite Hkr. apply lifted_key. exact Hl.
  - intros r i t' Hin Hn.
    destruct (Nat.lt_ge_cases i (List.length done)) as [Hi|Hi].
    + rewrite nth_error_app1 in Hn by exact Hi.
      apply outer_join_inv in Hin
        as [[a' [b' [Ha' [Hb' [_ ->]]]]]|[[a' [Ha' [_ ->]]]|[b' [Hb' [Hno ->]]]]].
      * destruct (HL _ Ha') as [a [Ha Hl]].
        apply (cell_from_ext t' i a); [apply (lifted_key _ _ Hl)| |eauto].
        rewrite exact_at_join_l by (rewrite (Hlen _ Ha'); exact Hi).
        apply lifted_exact. exact Hl.
      * destruct (HL _ Ha') as [a [Ha Hl]].
        apply (cell_from_ext t' i a); [apply (lifted_key _ _ Hl)| |eauto].
        rewrite exact_at_left_only_l by (rewrite (Hlen _ Ha'); exact Hi).
        apply lifted_exact. exact Hl.
      * right. split; [|apply exact_at_right_only_l; exact Hi].
        intros o Ho Hko.
        assert (H : In (key_of b') (keys acc)).
        { apply Hkeys. exists t'. split; [eapply nth_error_In; eauto|].
          apply in_keys. eauto. }
        apply in_keys in H as [a [Ha Hka]].
        destruct (HL' _ Ha) as [a' [Ha' Hl]].
        apply (Hno a' Ha'). rewrite (lifted_key _ _ Hl). exact Hka.
    + rewrite nth_error_app2 in Hn by exact Hi.
      destruct (i - List.length done)%nat as [|j] eqn:Hj; simpl in Hn;
        [|destruct j; discriminate].
      injection Hn as <-.
      assert (i = List.length done) by lia. subst i.
      apply outer_join_inv in Hin
        as [[a' [b' [Ha' [Hb' [Hkab ->]]]]]|[[a' [Ha' [Hno ->]]]|[b' [Hb' [_ ->]]]]].
      * destruct (HR _ Hb') as [b [Hb Hl]].
        left. exists b. split; [exact Hb|].
        split; [rewrite <- (lifted_key _ _ Hl); symmetry; exact Hkab|].
        rewrite <- (Hlen _ Ha'), exact_at_join_r.
        destruct (lifted_exact _ _ 0%nat Hl) as [E|E]; rewrite E;
          [left|right]; reflexivity.
      * right. split.
        -- intros o Ho Hko. destruct (HR' _ Ho) as [o' [Ho' Hl]].
           apply (Hno o' Ho'). rewrite (lifted_key _ _ Hl). exact Hko.
        -- rewrite <- (Hlen _ Ha'). apply exact_at_left_only_r.
      * destruct (HR _ Hb') as [b [Hb Hl]].
        left. exists b. split; [exact Hb|].
        split; [symmetry; apply (lifted_key _ _ Hl)|].
        rewrite exact_at_right_only_r.
        destruct (lifted_exact _ _ 0%nat Hl) as [E|E]; rewrite E;
          [left|right]; reflexivity.
Qed.

Lemma joined_fold rest : forall done acc,
  joined done acc -> Forall single_column rest ->
  exists merged,
    fold_left (fun acc y => obind acc (fun a => merge a y)) rest (Returns acc)
    = Returns merged
    /\ joined (done ++ rest) merged.
Proof.
  induction rest as [|t rest IH]; intros done acc Hj Hs; simpl.
  - exists acc. rewrite app_nil_r. auto.
  - inversion Hs as [|? ? Ht Hrest]; subst.
    destruct (joined_step _ _ _ Hj Ht) as [acc' [-> Hj']].
    destruct (IH _ _ Hj' Hrest) as [merged [Hm Hjm]].
    exists merged. split; [exact Hm|].
    rewrite <- app_assoc in Hjm. exact Hjm.
Qed.

(** *** Typed tables of fetched frames *)

Lemma typed_row_inv b o r :
  typed_row b o = Returns r ->
  exists v, value_cell b (obs_value o) = Returns v
            /\ obs_join_key o = (JStr (country_code r), JStr (country r), year r)
            /\ cells r = [v].
Proof.
  unfold typed_row, obs_join_key, text_cell.
  destruct (obs_country_code o); simpl; try discriminate.
  destruct (obs_country o); simpl; try discriminate.
  destruct (value_cell b (obs_value o)) as [v| |]; simpl; try discriminate.
  destruct (int64_range (obs_year o)); try discriminate.
  intros H. injection H as <-. exists v. auto.
Qed.

Lemma typed_row_cells b o r : typed_row b o = Returns r -> List.length (cells r) = 1%nat.
Proof.
  intros H. destruct (typed_row_inv _ _ _ H) as [v [_ [_ ->]]]. reflexivity.
Qed.

Lemma table_of_frame_single f t :
  observations f <> [] -> table_of_frame f = Returns t ->
  single_column t /\ columns t = [indicator_name f].
Proof.
  unfold table_of_frame. intros Hne.
  destruct (observations f) as [|o obs]; [contradiction|].
  destruct (for_each _ (o :: obs)) as [rs| |] eqn:Hrs; simpl; try discriminate.
  intros H. injection H as <-. unfold single_column; simpl.
  repeat split; auto.
  apply for_each_Forall2 in Hrs.
  clear Hne. revert Hrs. generalize (forallb (fun o => is_int (obs_value o)) (o :: obs)).
  generalize (o :: obs). intros l b Hrs.
  induction Hrs; constructor; eauto using typed_row_cells.
Qed.

(** A frame within the schema has a typed table, whatever the type of
    its value column. *)
Lemma typed_row_schema b o : schema_obs o = true -> exists r, typed_row b o = Returns r.
Proof.
  unfold schema_obs, typed_row, text_cell. intros H.
  apply andb_true_iff in H as [H Hv]. apply andb_true_iff in H as [H Hy].
  apply andb_true_iff in H as [Hc Hn].
  destruct (obs_country_code o); try discriminate Hc.
  destruct (obs_country o); try discriminate Hn. simpl. rewrite Hy.
  destruct (obs_value o); try discriminate Hv; simpl; eauto.
  simpl in Hv. rewrite Hv. simpl. eauto.
Qed.

Lemma for_each_typed_rows b l :
  forallb schema_obs l = true -> exists rs, for_each (typed_row b) l = Returns rs.
Proof.
  induction l as [|o l IH]; simpl; intros H; [eauto|].
  apply andb_true_iff in H as [Ho Hl].
  destruct (typed_row_schema b o Ho) as [r ->]. simpl.
  destruct (IH Hl) as [rs ->]. simpl. eauto.
Qed.

Lemma table_of_frame_schema f :
  schema_frame f = true -> exists t, table_of_frame f = Returns t.
Proof.
  unfold schema_frame, table_of_frame. intros H.
  destruct (observations f) as [|o obs]; [eauto|].
  destruct (for_each_typed_rows (forallb (fun o => is_int (obs_value o)) (o :: obs))
              _ H) as [rs ->].
  simpl. eauto.
Qed.

Lemma tables_of_frames frames :
  Forall (fun f => schema_frame f = true) frames ->
  exists tables, for_each table_of_frame frames = Returns tables.
Proof.
  induction 1 as [|f frames Hf _ [tables IH]]; simpl; [eauto|].
  destruct (table_of_frame_schema f Hf) as [t ->]. simpl. rewrite IH. simpl. eauto.
Qed.

(** Conversely, only frames within the schema have one, and building
    the table never raises. *)
Lemma typed_row_returns b o r : typed_row b o = Returns r -> schema_obs o = true.
Proof.
  unfold typed_row, schema_obs, text_cell.
  destruct (obs_country_code o); simpl; try discriminate.
  destruct (obs_country o); simpl; try discriminate.
  destruct (obs_value o) as [| |z|f| | |]; simpl; try discriminate;
    try (destruct (int64_range z); simpl; try discriminate);
    destruct (int64_range (obs_year o)); try discriminate; reflexivity.
Qed.

Lemma typed_row_no_raise b o e : typed_row b o <> Raises e.
Proof.
  unfold typed_row, text_cell.
  destruct (obs_country_code o); simpl; try discriminate.
  destruct (obs_country o); simpl; try discriminate.
  destruct (obs_value o) as [| |z|f| | |]; simpl; try discriminate;
    try (destruct (int64_range z); simpl; try discriminate);
    destruct (int64_range (obs_year o)); discriminate.
Qed.

Lemma for_each_no_raise {A B} (f : A -> outcome B) (l : list A) e :
  (forall x e', f x <> Raises e') -> for_each f l <> Raises e.
Proof.
  intros Hf. induction l as [|x l IH]; simpl; [discriminate|].
  destruct (f x) eqn:Hx; simpl; try discriminate.
  - destruct (for_each f l); simpl; try discriminate. exact IH.
  - exfalso. eapply Hf; eauto.
Qed.

Lemma table_of_frame_no_raise f e : table_of_frame f <> Raises e.
Proof.
  unfold table_of_frame. destruct (observations f) as [|o obs]; [discriminate|].
  destruct (for_each _ (o :: obs)) eqn:H; simpl; try discriminate.
  exfalso. revert H. apply for_each_no_raise. intros x e'. apply typed_row_no_raise.
Qed.

Lemma table_of_frame_schema_iff f :
  schema_frame f = true <-> exists t, table_of_frame f = Returns t.
Proof.
  split; [apply table_of_frame_schema|].
  unfold schema_frame, table_of_frame. intros [t H].
  destruct (observations f) as [|o obs]; [reflexivity|].
  destruct (for_each _ (o :: obs)) as [rs| |] eqn:Hrs; simpl in H; try discriminate H.
  apply for_each_Forall2 in Hrs. revert Hrs.
  generalize (forallb (fun o => is_int (obs_value o)) (o :: obs)).
  generalize (o :: obs). clear. intros l b Hrs.
  induction Hrs as [|x y xs ys Hxy _ IH]; simpl; [reflexivity|].
  rewrite (typed_row_returns _ _ _ Hxy), IH. reflexivity.
Qed.

(** The join of a non-empty list of frames that each hold a row. *)
Lemma merge_frames_joined frames :
  frames <> [] ->
  Forall (fun f => observations f <> [] /\ schema_frame f = true) frames ->
  exists tables merged,
    for_each table_of_frame frames = Returns tables
    /\ merge_frames frames = Returns merged
    /\ joined tables merged.
Proof.
  intros Hne H.
  destruct (tables_of_frames frames) as [tables Hfe].
  { eapply Forall_impl; [|exact H]. simpl. tauto. }
  assert (Hs : Forall single_column tables).
  { apply for_each_Forall2 in Hfe. clear Hne.
    induction Hfe as [|f t fs ts Ht _ IH]; constructor.
    - inversion H as [|? ? [Hf _] _]; subst.
      eapply table_of_frame_single; eauto.
    - apply IH. inversion H; assumption. }
  unfold merge_frames. rewrite Hfe. simpl.
  destruct tables as [|t0 rest].
  { apply for_each_Forall2 in Hfe. inversion Hfe; subst. contradiction. }
  inversion Hs as [|? ? Ht0 Hrest]; subst.
  destruct (joined_fold rest [t0] t0 (joined_start _ Ht0) Hrest) as [merged [Hm Hj]].
  exists (t0 :: rest), merged. auto.
Qed.

Lemma in_code_year c y t :
  In (c, y) (map code_year (rows t)) <-> exists n, In (c, n, y) (keys t).
Proof.
  unfold keys. rewrite in_map_iff. split.
  - intros [r [E Hr]]. injection E as <- <-. exists (country r).
    apply in_map_iff. exists r. auto.
  - intros [n H]. apply in_map_iff in H as [r [E Hr]]. injection E as <- <- <-.
    exists r. auto.
Qed.

(* ================================================================== *)
(** ** Properties of the join *)
(* ================================================================== *)

Lemma table_of_usa_2020 name v c :
  numeric v = Some c ->
  table_of_frame (mkIndicatorFrame name [usa_2020 v])
  = Returns (mkDataFrame true [name] [mkRow "USA" "United States" 2020 [c]]).
Proof.
  unfold table_of_frame, typed_row; simpl.
  destruct v as [| |z|f| | |]; simpl; try discriminate.
  - destruct (int64_range z); [|discriminate]. intros H. injection H as <-. reflexivity.
  - intros H. injection H as <-. reflexivity.
Qed.

(** C1 as stated fails: indicator tables that hold no row at all are
    fetched over identical keys, and their join raises [KeyError]
    (there is no key column to join on) instead of returning a merged
    table. *)
Lemma join_of_empty_tables_raises :
  ~ (forall frames,
        frames <> [] ->
        (forall f g, In f frames -> In g frames ->
                     map obs_key (observations f) = map obs_key (observations g)) ->
        exists merged,
          merge_frames frames = Returns merged
          /\ forall k, In k (keys merged) <->
                       exists f t, In f frames /\ table_of_frame f = Returns t
                                   /\ In k (keys t)).
Proof.
  intros H. destruct (H empty_frames) as [merged [Hm _]].
  - discriminate.
  - intros f g Hf Hg. simpl in Hf, Hg.
    repeat (destruct Hf as [<-|Hf]); try contradiction;
      repeat (destruct Hg as [<-|Hg]); try contradiction; reflexivity.
  - vm_compute in Hm. discriminate Hm.
Qed.

(** C1, amended.  For one or more fetched indicator frames that each
    hold at least one row (country code and name strings, value a
    number or null), the repeated outer join returns a table whose keys
    are exactly the keys of the indicator tables taken together (as
    (country_code, country, year) join keys and as (country_code, year)
    pairs), and in every merged row the column of an indicator holds a
    value that indicator's table has at the row's key (converted to
    float64 when the join made the column float64), or the
    missing-value marker when the table has no row at that key.  In the
    scenario where all four indicators were fetched for (USA, 2020) and
    only renewable share and population carry a number, integer or
    float, the join is exactly one row for (USA, 2020) with those two
    values as they are and with energy use and GDP missing. *)
Theorem merge_frames_complete :
  (forall frames,
      frames <> [] ->
      Forall (fun f => observations f <> [] /\ schema_frame f = true) frames ->
      exists tables merged,
        Forall2 (fun f t => table_of_frame f = Returns t) frames tables
        /\ merge_frames frames = Returns merged
        /\ (forall k, In k (keys merged) <-> exists t, In t tables /\ In k (keys t))
        /\ (forall c y, In (c, y) (map code_year (rows merged))
                        <-> exists t, In t tables /\ In (c, y) (map code_year (rows t)))
        /\ (forall r i t, In r (rows merged) -> nth_error tables i = Some t ->
                          cell_from t i r))
  /\ (forall share population cs cp,
         numeric share = Some cs ->
         numeric population = Some cp ->
         merge_frames (scenario_frames share population)
         = Returns (mkDataFrame true indicators
                      [mkRow "USA" "United States" 2020
                         [cs; Float64 nan; cp; Float64 nan]])).
Proof.
  split.
  - intros frames Hne H.
    destruct (merge_frames_joined frames Hne H)
      as [tables [merged [Hfe [Hm [_ [_ [_ [Hkeys Hcells]]]]]]]].
    exists tables, merged.
    split; [apply for_each_Forall2; exact Hfe|].
    split; [exact Hm|]. split; [exact Hkeys|]. split; [|exact Hcells].
    intros c y. rewrite in_code_year. split.
    + intros [n Hn]. apply Hkeys in Hn as [t [Ht Hn]].
      exists t. split; [exact Ht|]. apply in_code_year. eauto.
    + intros [t [Ht Hn]]. apply in_code_year in Hn as [n Hn].
      exists n. apply Hkeys. eauto.
  - intros share population cs cp Hs Hp.
    unfold merge_frames, scenario_frames. simpl for_each.
    rewrite (table_of_usa_2020 _ _ _ Hs), (table_of_usa_2020 _ _ _ Hp).
    reflexivity.
Qed.

Lemma merge_frames_complete_witness :
  (exists tables merged,
      Forall2 (fun f t => table_of_frame f = Returns t) sample_frames tables
      /\ merge_frames sample_frames = Returns merged
      /\ (forall k, In k (keys merged) <-> exists t, In t tables /\ In k (keys t))
      /\ (forall c y, In (c, y) (map code_year (rows merged))
                      <-> exists t, In t tables /\ In (c, y) (map code_year (rows t)))
      /\ (forall r i t, In r (rows merged) -> nth_error tables i = Some t ->
                        cell_from t i r))
  /\ merge_frames (scenario_frames (JFloat 12.5) (JInt 331000000))
     = Returns (mkDataFrame true indicators
                  [mkRow "USA" "United States" 2020
                     [Float64 12.5; Float64 nan; Int64 331000000; Float64 nan]]).
Proof.
  split.
  - apply (proj1 merge_frames_complete sample_frames).
    + discriminate.
    + repeat (constructor; [split; [discriminate|reflexivity]|]). constructor.
  - apply (proj2 merge_frames_complete (JFloat 12.5) (JInt 331000000)); reflexivity.
Defined.

(* ================================================================== *)
(** ** The shape of [build_dataset]'s result *)
(* ================================================================== *)

Lemma fetch_indicator_name indicator net log frame log' :
  fetch_indicator indicator net log = (Returns frame, log') ->
  indicator_name frame = indicator.
Proof.
  rewrite fetch_indicator_run.
  destruct (net (indicator_url indicator)) as [response|]; [|discriminate].
  destruct (rows_of_response response); simpl; try discriminate.
  intros H. injection H as <- _. reflexivity.
Qed.

Lemma mapM_fetch_names inds : forall net log frames log',
  mapM fetch_indicator inds net log = (Returns frames, log') ->
  map indicator_name frames = inds.
Proof.
  induction inds as [|i inds IH]; simpl; intros net log frames log' H.
  - unfold ret in H. injection H as <- _. reflexivity.
  - unfold bind in H.
    destruct (fetch_indicator i net log) as [[f| |] l1] eqn:Hf; try discriminate.
    destruct (mapM fetch_indicator inds net l1) as [[fs| |] l2] eqn:Hfs;
      try discriminate.
    unfold ret in H. injection H as <- _. simpl.
    rewrite (fetch_indicator_name _ _ _ _ _ Hf), (IH _ _ _ _ Hfs). reflexivity.
Qed.

Lemma table_of_frame_keyed f t :
  table_of_frame f = Returns t -> keyed t = true -> observations f <> [].
Proof.
  unfold table_of_frame. destruct (observations f); [|discriminate].
  intros H. injection H as <-. discriminate.
Qed.

Lemma merge_inv a b m :
  merge a b = Returns m ->
  keyed a = true /\ keyed b = true /\ keyed m = true
  /\ columns m = merge_columns (columns a) (columns b).
Proof.
  unfold merge. destruct (keyed a), (keyed b); simpl; try discriminate.
  intros H. injection H as <-. auto.
Qed.

(** After a successful join of the four fetched frames the table has
    the four indicator columns, and every row four cells. *)
Lemma merge_frames_shape frames merged :
  map indicator_name frames = indicators ->
  merge_frames frames = Returns merged ->
  keyed merged = true
  /\ columns merged = indicators
  /\ Forall (fun r => List.length (cells r) = 4%nat) (rows merged).
Proof.
  intros Hn. unfold merge_frames.
  destruct frames as [|f1 [|f2 [|f3 [|f4 [|f5 fs]]]]]; try discriminate.
  injection Hn as N1 N2 N3 N4. simpl.
  destruct (table_of_frame f1) as [t1| |] eqn:T1; simpl; try discriminate.
  destruct (table_of_frame f2) as [t2| |] eqn:T2; simpl; try discriminate.
  destruct (table_of_frame f3) as [t3| |] eqn:T3; simpl; try discriminate.
  destruct (table_of_frame f4) as [t4| |] eqn:T4; simpl; try discriminate.
  destruct (merge t1 t2) as [m12| |] eqn:M12; simpl; try discriminate.
  destruct (merge m12 t3) as [m123| |] eqn:M123; simpl; try discriminate.
  intros M.
  destruct (merge_inv _ _ _ M12) as [K1 [K2 [_ C12]]].
  destruct (merge_inv _ _ _ M123) as [_ [K3 [_ C123]]].
  destruct (merge_inv _ _ _ M) as [_ [K4 [K C]]].
  destruct (table_of_frame_single _ _ (table_of_frame_keyed _ _ T1 K1) T1) as [S1 C1].
  destruct (table_of_frame_single _ _ (table_of_frame_keyed _ _ T2 K2) T2) as [S2 C2].
  destruct (table_of_frame_single _ _ (table_of_frame_keyed _ _ T3 K3) T3) as [S3 C3].
  destruct (table_of_frame_single _ _ (table_of_frame_keyed _ _ T4 K4) T4) as [S4 C4].
  split; [exact K|]. split.
  - rewrite C, C123, C12, C1, C2, C3, C4, N1, N2, N3, N4. reflexivity.
  - destruct (joined_fold [t2; t3; t4] [t1] t1 (joined_start _ S1)) as [m' [Hm' Hj]].
    { repeat (constructor; [assumption|]). constructor. }
    simpl in Hm'. rewrite M12 in Hm'. simpl in Hm'. rewrite M123 in Hm'. simpl in Hm'.
    rewrite M in Hm'. injection Hm' as <-.
    destruct Hj as [_ [_ [Hlen _]]]. exact Hlen.
Qed.

Lemma clean_shape countries merged :
  keyed merged = true ->
  columns merged = indicators ->
  clean countries merged =
  Returns (mkDataFrame true friendly_columns
             (filter required_present
                (filter (isin countries)
                   (filter year_and_code_mask (rows merged))))).
Proof.
  intros K H. unfold clean, dropna, select, rename. rewrite K. simpl.
  rewrite H. reflexivity.
Qed.

Lemma derive_shape df :
  columns df = friendly_columns ->
  derive df =
  Returns (mkDataFrame (keyed df) final_columns
             (map with_intensity (map with_total (rows df)))).
Proof.
  intros H. unfold derive, assign_binop. rewrite H. reflexivity.
Qed.

(** The result of [build_dataset], whenever the four fetches and the
    join succeed: the derived rows of the merged rows that pass the
    three filters. *)
Lemma build_dataset_run countries net log :
  build_dataset countries net log =
  match mapM fetch_indicator indicators net log with
  | (Returns frames, log') =>
      (obind (merge_frames frames) (fun merged =>
       obind (clean countries merged) derive), log')
  | (Raises e, log') => (Raises e, log')
  | (Unmodelled, log') => (Unmodelled, log')
  end.
Proof.
  unfold build_dataset, bind, lift.
  destruct (mapM fetch_indicator indicators net log) as [[frames| |] l1]; try reflexivity.
  destruct (merge_frames frames) as [merged| |]; simpl; try reflexivity.
  destruct (clean countries merged) as [cleaned| |]; simpl; reflexivity.
Qed.

Lemma build_dataset_shape countries net log frames merged log' :
  mapM fetch_indicator indicators net log = (Returns frames, log') ->
  merge_frames frames = Returns merged ->
  build_dataset countries net log =
  (Returns (mkDataFrame true final_columns
              (map with_intensity
                 (map with_total
                    (filter required_present
                       (filter (isin countries)
                          (filter year_and_code_mask (rows merged))))))), log')
  /\ Forall (fun r => List.length (cells r) = 4%nat) (rows merged).
Proof.
  intros Hf Hm.
  destruct (merge_frames_shape _ _ (mapM_fetch_names _ _ _ _ _ Hf) Hm) as [K [C L]].
  split; [|exact L].
  rewrite build_dataset_run, Hf, Hm. simpl.
  rewrite (clean_shape _ _ K C). simpl.
  rewrite derive_shape by reflexivity. reflexivity.
Qed.

Lemma build_dataset_inv countries net log df log' :
  build_dataset countries net log = (Returns df, log') ->
  exists frames merged,
    mapM fetch_indicator indicators net log = (Returns frames, log')
    /\ merge_frames frames = Returns merged.
Proof.
  rewrite build_dataset_run.
  destruct (mapM fetch_indicator indicators net log) as [[frames| |] l1];
    try discriminate.
  destruct (merge_frames frames) as [merged| |] eqn:Hm; simpl; try discriminate.
  intros H. injection H as _ <-. eauto.
Qed.

(** Every row of the final table comes from a merged row with four
    cells that passed the filters, extended by the two derived cells. *)
Lemma final_row_shape countries net log df log' r :
  build_dataset countries net log = (Returns df, log') ->
  In r (rows df) ->
  columns df = final_columns
  /\ exists m share use pop gdp,
       cells m = [share; use; pop; gdp]
       /\ year_and_code_mask m = true
       /\ isin countries m = true
       /\ isna (to_float share) = false /\ isna (to_float use) = false
       /\ r = mkRow (country_code m) (country m) (year m)
                [share; use; pop; gdp; cell_mul use pop; cell_div use gdp].
Proof.
  intros Hb Hin.
  destruct (build_dataset_inv _ _ _ _ _ Hb) as [frames [merged [Hf Hm]]].
  destruct (build_dataset_shape countries _ _ _ _ _ Hf Hm) as [E L].
  rewrite E in Hb. injection Hb as <-. simpl in *. split; [reflexivity|].
  apply in_map_iff in Hin as [r1 [<- Hin]].
  apply in_map_iff in Hin as [m [<- Hin]].
  apply filter_In in Hin as [Hin Hreq].
  apply filter_In in Hin as [Hin Hisin].
  apply filter_In in Hin as [Hin Hmask].
  rewrite Forall_forall in L. specialize (L m Hin).
  destruct (cells m) as [|share [|use [|pop [|gdp [|x l]]]]] eqn:Hc; try discriminate.
  exists m, share, use, pop, gdp.
  unfold required_present, cell_at, exact_at in Hreq. rewrite Hc in Hreq.
  cbn [forallb nth] in Hreq.
  apply andb_true_iff in Hreq as [H1 H2]. apply andb_true_iff in H2 as [H2 _].
  apply negb_true_iff in H1, H2.
  repeat split; auto.
  unfold with_intensity, with_total, with_cells, exact_at. simpl. rewrite Hc. reflexivity.
Qed.

(** Reading a named column of a row whose cells are known. *)
Ltac read_column Hc := unfold get, get_cell; rewrite Hc; reflexivity.

Lemma sample_run_eq :
  build_dataset sample_countries sample_net [] = (Returns sample_dataset, snd sample_run).
Proof. vm_compute. reflexivity. Qed.

Lemma zero_gdp_run_eq :
  build_dataset sample_countries zero_gdp_net [] = zero_gdp_run.
Proof. vm_compute. reflexivity. Qed.

(* ================================================================== *)
(** ** Properties of [build_dataset] *)
(* ================================================================== *)

(** C2.  Every row of the table [build_dataset] returns has a year of
    1990 or later, a country code of length three that is in the
    supplied country list, and neither its renewable share nor its
    energy use per capita is missing. *)
Theorem final_rows_invariants countries net log df log' :
  build_dataset countries net log = (Returns df, log') ->
  forall r, In r (rows df) ->
    1990 <= year r
    /\ String.length (country_code r) = 3%nat
    /\ In (country_code r) countries
    /\ exists share use,
         get df "renewable_share" r = Some share
         /\ get df "energy_use_per_capita" r = Some use
         /\ isna share = false /\ isna use = false.
Proof.
  intros Hb r Hin.
  destruct (final_row_shape _ _ _ _ _ _ Hb Hin)
    as [Hc [m [share [use [pop [gdp [_ [Hmask [Hisin [Hs [Hu ->]]]]]]]]]]].
  unfold year_and_code_mask in Hmask. apply andb_true_iff in Hmask as [Hy Hl].
  apply Z.leb_le in Hy. apply Nat.eqb_eq in Hl.
  unfold isin, mem in Hisin. apply existsb_exists in Hisin as [c [Hcin Hceq]].
  apply String.eqb_eq in Hceq. simpl.
  repeat split; auto.
  - rewrite Hceq. exact Hcin.
  - exists (to_float share), (to_float use). repeat split; auto.
    + read_column Hc.
    + read_column Hc.
Qed.

Lemma final_rows_invariants_witness :
  (1990 <= year sample_row
   /\ String.length (country_code sample_row) = 3%nat
   /\ In (country_code sample_row) sample_countries
   /\ exists share use,
        get sample_dataset "renewable_share" sample_row = Some share
        /\ get sample_dataset "energy_use_per_capita" sample_row = Some use
        /\ isna share = false /\ isna use = false)
  /\ (1990 <= year integer_row
      /\ String.length (country_code integer_row) = 3%nat
      /\ In (country_code integer_row) ["USA"]
      /\ exists share use,
           get (mkDataFrame true final_columns [integer_row]) "renewable_share" integer_row
           = Some share
           /\ get (mkDataFrame true final_columns [integer_row])
                  "energy_use_per_capita" integer_row
              = Some use
           /\ isna share = false /\ isna use = false).
Proof.
  split.
  - apply (final_rows_invariants sample_countries sample_net [] sample_dataset
             (snd sample_run) sample_run_eq sample_row).
    right. left. reflexivity.
  - apply (final_rows_invariants ["USA"] integer_net []
             (mkDataFrame true final_columns [integer_row])
             (map indicator_url indicators)).
    + vm_compute. reflexivity.
    + left. reflexivity.
Defined.

(** C3 as stated fails: when every energy use and every population of
    the joined table is an integer, both columns are int64 and their
    product wraps around at 64 bits.  With 4000000000 in both, the
    total energy use of the row is -2446744073709551616, a negative
    number, while the product is 16000000000000000000. *)
Lemma int64_product_wraps :
  ~ (forall countries net log df log' r use pop gdp total,
        build_dataset countries net log = (Returns df, log') ->
        In r (rows df) ->
        get df "energy_use_per_capita" r = Some use ->
        get df "population" r = Some pop ->
        get df "gdp_per_capita" r = Some gdp ->
        get df "total_energy_use" r = Some total ->
        isna use = false -> isna pop = false -> isna gdp = false ->
        total = (use * pop)%float).
Proof.
  intros H.
  assert (E : float_of_Z (-2446744073709551616)
              = (float_of_Z 4000000000 * float_of_Z 4000000000)%float).
  { apply (H ["USA"] wide_net [] (mkDataFrame true final_columns [wide_row])
             (map indicator_url indicators) wide_row _ _ 60000%float);
      try reflexivity.
    left. reflexivity. }
  apply (f_equal (fun x => (x <? 0)%float)) in E. vm_compute in E. discriminate E.
Qed.

(** C3, amended.  In every row of the final table the energy intensity
    is the float64 quotient of energy use per capita by GDP per capita.
    The total energy use is the float64 product of energy use per
    capita and population, unless both columns are int64: then it is
    the integer product reduced modulo 2^64 into the int64 range, which
    is the exact product whenever that fits in 64 bits. *)
Theorem derived_values_correct countries net log df log' :
  build_dataset countries net log = (Returns df, log') ->
  forall r, In r (rows df) ->
    exists use pop gdp total,
      get_cell df "energy_use_per_capita" r = Some use
      /\ get_cell df "population" r = Some pop
      /\ get_cell df "gdp_per_capita" r = Some gdp
      /\ get_cell df "total_energy_use" r = Some total
      /\ get_cell df "energy_intensity" r = Some (Float64 (to_float use / to_float gdp))
      /\ ((forall x y, ~ (use = Int64 x /\ pop = Int64 y)) ->
          total = Float64 (to_float use * to_float pop))
      /\ (forall x y, use = Int64 x -> pop = Int64 y ->
            exists z, total = Int64 z
                      /\ - 2 ^ 63 <= z < 2 ^ 63
                      /\ z mod 2 ^ 64 = (x * y) mod 2 ^ 64
                      /\ (- 2 ^ 63 <= x * y < 2 ^ 63 -> z = x * y)).
Proof.
  intros Hb r Hin.
  destruct (final_row_shape _ _ _ _ _ _ Hb Hin)
    as [Hc [m [share [use [pop [gdp [_ [_ [_ [_ [_ ->]]]]]]]]]]].
  exists use, pop, gdp, (cell_mul use pop).
  split; [read_column Hc|].
  split; [read_column Hc|].
  split; [read_column Hc|].
  split; [read_column Hc|].
  split; [read_column Hc|].
  split; [apply cell_mul_float|].
  intros x y -> ->. exists (wrap64 (x * y)).
  split; [reflexivity|]. split; [apply wrap64_range|].
  split; [apply wrap64_mod|apply wrap64_small].
Qed.

Lemma derived_values_correct_witness :
  (exists use pop gdp total,
      get_cell sample_dataset "energy_use_per_capita" sample_row = Some use
      /\ get_cell sample_dataset "population" sample_row = Some pop
      /\ get_cell sample_dataset "gdp_per_capita" sample_row = Some gdp
      /\ get_cell sample_dataset "total_energy_use" sample_row = Some total
      /\ get_cell sample_dataset "energy_intensity" sample_row
         = Some (Float64 (to_float use / to_float gdp))
      /\ total = Float64 2250800000000)
  /\ (exists use pop gdp total,
         get_cell (mkDataFrame true final_columns [integer_row])
                  "energy_use_per_capita" integer_row = Some use
         /\ get_cell (mkDataFrame true final_columns [integer_row])
                     "population" integer_row = Some pop
         /\ get_cell (mkDataFrame true final_columns [integer_row])
                     "gdp_per_capita" integer_row = Some gdp
         /\ get_cell (mkDataFrame true final_columns [integer_row])
                     "total_energy_use" integer_row = Some total
         /\ get_cell (mkDataFrame true final_columns [integer_row])
                     "energy_intensity" integer_row
            = Some (Float64 (to_float use / to_float gdp))
         /\ total = Int64 (6800 * 331000000)).
Proof.
  split.
  - destruct (derived_values_correct sample_countries sample_net [] sample_dataset
                (snd sample_run) sample_run_eq sample_row)
      as [use [pop [gdp [total [Hu [Hp [Hg [Ht [Hi [Hf _]]]]]]]]]].
    { right. left. reflexivity. }
    exists use, pop, gdp, total.
    split; [exact Hu|]. split; [exact Hp|]. split; [exact Hg|].
    split; [exact Ht|]. split; [exact Hi|].
    vm_compute in Hu, Hp. injection Hu as <-. injection Hp as <-.
    rewrite Hf; [vm_compute; reflexivity|].
    intros x y [Hx _]. discriminate Hx.
  - destruct (derived_values_correct ["USA"] integer_net []
                (mkDataFrame true final_columns [integer_row])
                (map indicator_url indicators)) with (r := integer_row)
      as [use [pop [gdp [total [Hu [Hp [Hg [Ht [Hi [_ Hz]]]]]]]]]].
    { vm_compute. reflexivity. }
    { left. reflexivity. }
    exists use, pop, gdp, total.
    split; [exact Hu|]. split; [exact Hp|]. split; [exact Hg|].
    split; [exact Ht|]. split; [exact Hi|].
    vm_compute in Hu, Hp. injection Hu as <-. injection Hp as <-.
    destruct (Hz 6800 331000000 eq_refl eq_refl) as [z [-> [_ [_ Hfit]]]].
    rewrite Hfit; [reflexivity|lia].
Defined.

(** C4 as stated fails: with a GDP per capita of zero and a non-zero
    energy use the energy intensity of the row is infinity, which is
    not the missing-value marker. *)
Lemma zero_gdp_is_not_missing :
  ~ (forall countries net log df log' r gdp intensity,
        build_dataset countries net log = (Returns df, log') ->
        In r (rows df) ->
        get df "gdp_per_capita" r = Some gdp ->
        get df "energy_intensity" r = Some intensity ->
        isna gdp = true \/ is_zero gdp = true ->
        isna intensity = true).
Proof.
  intros H.
  specialize (H sample_countries zero_gdp_net [] _ _ zero_gdp_row 0%float infinity
                zero_gdp_run_eq).
  assert (E : isna infinity = true).
  { apply H.
    - right. left. reflexivity.
    - reflexivity.
    - reflexivity.
    - right. reflexivity. }
  discriminate E.
Qed.

(** C4, amended.  Once the four fetches and the join have succeeded,
    the rest of [build_dataset], the derived columns included, raises
    nothing.  In every row of the final table, a missing population
    makes the total energy use missing and a missing GDP per capita
    makes the energy intensity missing; a GDP per capita of zero gives
    the float64 quotient, which is the missing-value marker when the
    energy use per capita is zero too and an infinity otherwise. *)
Theorem derived_columns_missing_values countries net log :
  (forall frames merged log',
      mapM fetch_indicator indicators net log = (Returns frames, log') ->
      merge_frames frames = Returns merged ->
      exists df, build_dataset countries net log = (Returns df, log'))
  /\ (forall df log' r,
         build_dataset countries net log = (Returns df, log') ->
         In r (rows df) ->
         exists use pop gdp total intensity,
           get df "energy_use_per_capita" r = Some use
           /\ get df "population" r = Some pop
           /\ get df "gdp_per_capita" r = Some gdp
           /\ get df "total_energy_use" r = Some total
           /\ get df "energy_intensity" r = Some intensity
           /\ (isna pop = true -> isna total = true)
           /\ (isna gdp = true -> isna intensity = true)
           /\ (is_zero gdp = true ->
               (is_zero use = true -> isna intensity = true)
               /\ (is_zero use = false -> is_infinity intensity = true))).
Proof.
  split.
  - intros frames merged log' Hf Hm.
    destruct (build_dataset_shape countries _ _ _ _ _ Hf Hm) as [E _]. eauto.
  - intros df log' r Hb Hin.
    destruct (final_row_shape _ _ _ _ _ _ Hb Hin)
      as [Hc [m [share [use [pop [gdp [_ [_ [_ [_ [Hu ->]]]]]]]]]]].
    exists (to_float use), (to_float pop), (to_float gdp),
      (to_float (cell_mul use pop)), (to_float (cell_div use gdp)).
    split; [read_column Hc|].
    split; [read_column Hc|].
    split; [read_column Hc|].
    split; [read_column Hc|].
    split; [read_column Hc|].
    split; [apply isna_cell_mul_r|]. split; [apply isna_cell_div_r|].
    intros Hz. apply div_by_zero; assumption.
Qed.

(** The rows of three runs: (USA, 2019) of the sample, where population
    and GDP per capita are missing; (USA, 2020) with a GDP per capita
    of zero; (USA, 2020) with energy use and GDP per capita both
    zero. *)
Lemma derived_columns_missing_values_witness :
  (exists df, build_dataset sample_countries zero_gdp_net [] = (Returns df, snd zero_gdp_run))
  /\ (exists total intensity,
         get sample_dataset "population" usa_2019_row = Some nan
         /\ get sample_dataset "gdp_per_capita" usa_2019_row = Some nan
         /\ get sample_dataset "total_energy_use" usa_2019_row = Some total
         /\ get sample_dataset "energy_intensity" usa_2019_row = Some intensity
         /\ isna total = true /\ isna intensity = true)
  /\ (exists intensity,
         get (mkDataFrame true final_columns [usa_2019_row; zero_gdp_row])
             "energy_use_per_capita" zero_gdp_row = Some 6800%float
         /\ get (mkDataFrame true final_columns [usa_2019_row; zero_gdp_row])
                "gdp_per_capita" zero_gdp_row = Some 0%float
         /\ get (mkDataFrame true final_columns [usa_2019_row; zero_gdp_row])
                "energy_intensity" zero_gdp_row = Some intensity
         /\ is_infinity intensity = true)
  /\ (exists intensity,
         get (mkDataFrame true final_columns [zero_both_row])
             "energy_use_per_capita" zero_both_row = Some 0%float
         /\ get (mkDataFrame true final_columns [zero_both_row])
                "gdp_per_capita" zero_both_row = Some 0%float
         /\ get (mkDataFrame true final_columns [zero_both_row])
                "energy_intensity" zero_both_row = Some intensity
         /\ isna intensity = true).
Proof.
  split; [|split; [|split]].
  - destruct (mapM fetch_indicator indicators zero_gdp_net []) as [o l] eqn:Hf.
    destruct o as [frames| |]; [|vm_compute in Hf; discriminate Hf..].
    destruct (merge_frames frames) as [merged| |] eqn:Hm.
    + assert (Hl : l = snd zero_gdp_run).
      { vm_compute in Hf. injection Hf as _ <-. reflexivity. }
      rewrite <- Hl.
      exact (proj1 (derived_columns_missing_values sample_countries zero_gdp_net [])
                   frames merged l Hf Hm).
    + vm_compute in Hf. injection Hf as <- _. vm_compute in Hm. discriminate Hm.
    + vm_compute in Hf. injection Hf as <- _. vm_compute in Hm. discriminate Hm.
  - destruct (proj2 (derived_columns_missing_values sample_countries sample_net [])
                sample_dataset (snd sample_run) usa_2019_row sample_run_eq)
      as [use [pop [gdp [total [intensity [Hu [Hp [Hg [Ht [Hi [Hmp [Hmg _]]]]]]]]]]]].
    { left. reflexivity. }
    exists total, intensity.
    split; [reflexivity|]. split; [reflexivity|].
    split; [exact Ht|]. split; [exact Hi|].
    vm_compute in Hp, Hg. injection Hp as <-. injection Hg as <-.
    split; [apply Hmp|apply Hmg]; reflexivity.
  - destruct (proj2 (derived_columns_missing_values sample_countries zero_gdp_net [])
                (mkDataFrame true final_columns [usa_2019_row; zero_gdp_row])
                (snd zero_gdp_run) zero_gdp_row)
      as [use [pop [gdp [total [intensity [Hu [Hp [Hg [Ht [Hi [_ [_ Hz]]]]]]]]]]]].
    { vm_compute. reflexivity. }
    { right. left. reflexivity. }
    exists intensity.
    split; [reflexivity|]. split; [reflexivity|]. split; [exact Hi|].
    vm_compute in Hu, Hg. injection Hu as <-. injection Hg as <-.
    apply (Hz eq_refl). reflexivity.
  - destruct (proj2 (derived_columns_missing_values ["USA"] zero_both_net [])
                (mkDataFrame true final_columns [zero_both_row])
                (map indicator_url indicators) zero_both_row)
      as [use [pop [gdp [total [intensity [Hu [Hp [Hg [Ht [Hi [_ [_ Hz]]]]]]]]]]]].
    { vm_compute. reflexivity. }
    { left. reflexivity. }
    exists intensity.
    split; [reflexivity|]. split; [reflexivity|]. split; [exact Hi|].
    vm_compute in Hu, Hg. injection Hu as <-. injection Hg as <-.
    apply (Hz eq_refl). reflexivity.
Defined.

(* ================================================================== *)
(** ** The forecast axis *)
(* ================================================================== *)







Lemma fold_max_spec l : forall y0,
  let m := fold_left Z.max l y0 in
  y0 <= m /\ (forall y, In y l -> y <= m) /\ (m = y0 \/ In m l).
Proof.
  induction l as [|x l IH]; intros y0; simpl.
  - split; [lia|]. split; [intros y []|left; reflexivity].
  - destruct (IH (Z.max y0 x)) as [H1 [H2 H3]].
    split; [lia|]. split.
    + intros y [<-|Hy]; [lia|auto].
    + destruct H3 as [H3|H3]; [|right; right; exact H3].
      destruct (Z.max_spec y0 x) as [[_ E]|[_ E]]; rewrite E in *.
      * right. left. symmetry. exact H3.
      * left. exact H3.
Qed.




(* ================================================================== *)
(** ** Requests and failures of [build_dataset] *)
(* ================================================================== *)

Lemma for_each_modelled {A B} (f : A -> outcome B) (l : list A) :
  (forall x, f x <> Unmodelled) -> for_each f l <> Unmodelled.
Proof.
  intros Hf. induction l as [|x l IH]; simpl; [discriminate|].
  destruct (f x) eqn:Hx; simpl; try discriminate.
  - destruct (for_each f l); simpl; try discriminate. contradiction.
  - exfalso. eapply Hf; eauto.
Qed.

Lemma rows_of_response_modelled response : rows_of_response response <> Unmodelled.
Proof.
  unfold rows_of_response, requests.raise_for_status, requests.json.
  destruct (requests.is_error_status (status_code response)); simpl; [discriminate|].
  destruct (json_body response) as [j|]; simpl; [|discriminate].
  destruct (getitem_index j 1) as [records| |] eqn:Hg; simpl; try discriminate.
  - destruct (iter records) as [recs| |] eqn:Hi; simpl; try discriminate.
    + apply for_each_modelled, row_of_record_modelled.
    + destruct records; discriminate Hi.
  - destruct j; unfold getitem_index in Hg; try discriminate Hg.
    + destruct (nth_error (chars s) 1); discriminate Hg.
    + destruct (nth_error l 1); discriminate Hg.
Qed.

(** A fetch either returns a frame or raises, and which of the two does
    not depend on the requests made before. *)
Lemma fetch_indicator_cases indicator net :
  (exists frame, forall log,
      fetch_indicator indicator net log
      = (Returns frame, log ++ [indicator_url indicator]))
  \/ (exists e, forall log,
         fetch_indicator indicator net log
         = (Raises e, log ++ [indicator_url indicator])).
Proof.
  destruct (net (indicator_url indicator)) as [response|] eqn:Hnet.
  - destruct (rows_of_response response) as [rows|e|] eqn:H.
    + left. eexists. intros log. rewrite fetch_indicator_run, Hnet, H. reflexivity.
    + right. exists e. intros log. rewrite fetch_indicator_run, Hnet, H. reflexivity.
    + now apply rows_of_response_modelled in H.
  - right. exists ConnectionError. intros log.
    rewrite fetch_indicator_run, Hnet. reflexivity.
Qed.

(** The requests of a list comprehension of fetches: one GET per
    indicator, in order, up to and including the first that raises;
    the comprehension raises what that fetch raised. *)
Lemma mapM_fetch_stops inds : forall net log,
  exists n,
    (n <= List.length inds)%nat
    /\ (forall i, In i (firstn n inds) ->
          exists frame, forall l,
            fetch_indicator i net l = (Returns frame, l ++ [indicator_url i]))
    /\ ((n = List.length inds
         /\ exists frames,
              mapM fetch_indicator inds net log
              = (Returns frames, log ++ map indicator_url inds))
        \/ (exists i e,
              nth_error inds n = Some i
              /\ (forall l, fetch_indicator i net l = (Raises e, l ++ [indicator_url i]))
              /\ mapM fetch_indicator inds net log
                 = (Raises e, log ++ map indicator_url (firstn (S n) inds)))).
Proof.
  induction inds as [|i inds IH]; intros net log.
  - exists 0%nat. simpl. split; [lia|]. split; [intros ? []|].
    left. split; [reflexivity|]. exists []. rewrite app_nil_r. reflexivity.
  - destruct (fetch_indicator_cases i net) as [[f Hf]|[e He]].
    + destruct (IH net (log ++ [indicator_url i])) as [n [Hn [Hok Hout]]].
      exists (S n). split; [simpl; lia|]. split.
      * intros j [<-|Hj]; [eauto|auto].
      * simpl mapM. unfold bind. rewrite Hf.
        destruct Hout as [[-> [fs Hfs]]|[j [e [Hj [He Hm]]]]].
        -- left. split; [reflexivity|]. exists (f :: fs).
           rewrite Hfs. unfold ret. rewrite <- app_assoc. reflexivity.
        -- right. exists j, e. split; [exact Hj|]. split; [exact He|].
           rewrite Hm. rewrite <- app_assoc. reflexivity.
    + exists 0%nat. split; [simpl; lia|]. split; [intros ? []|].
      right. exists i, e. split; [reflexivity|]. split; [exact He|].
      simpl. unfold bind. rewrite He. reflexivity.
Qed.

(** X2.  [build_dataset] requests the indicator URLs in the fixed
    order, one GET each, and nothing else, and it stops at the first
    fetch that raises: the fetches before it returned, its URL is the
    last one requested, and [build_dataset] raises what it raised.
    When all four fetches return, exactly the four URLs were
    requested. *)
Theorem build_dataset_requests countries net log o log' :
  build_dataset countries net log = (o, log') ->
  exists n,
    (n <= 4)%nat
    /\ (forall i, In i (firstn n indicators) ->
          exists frame, forall l,
            fetch_indicator i net l = (Returns frame, l ++ [indicator_url i]))
    /\ ((n = 4%nat /\ log' = log ++ map indicator_url indicators)
        \/ (exists i e,
              nth_error indicators n = Some i
              /\ (forall l, fetch_indicator i net l = (Raises e, l ++ [indicator_url i]))
              /\ o = Raises e
              /\ log' = log ++ map indicator_url (firstn (S n) indicators))).
Proof.
  rewrite build_dataset_run. intros H.
  destruct (mapM_fetch_stops indicators net log) as [n [Hn [Hok Hout]]].
  exists n. split; [exact Hn|]. split; [exact Hok|].
  destruct Hout as [[-> [frames Hf]]|[i [e [Hi [He Hm]]]]].
  - left. split; [reflexivity|]. rewrite Hf in H. injection H as _ <-. reflexivity.
  - right. exists i, e. rewrite Hm in H. injection H as <- <-. auto.
Qed.

(** Two runs: on a World Bank that is out of service after the first
    indicator, the run stops after two requests with the error of the
    second; on the sample World Bank all four are made. *)
Lemma build_dataset_requests_witness :
  (exists i e,
      nth_error indicators 1 = Some i
      /\ (forall l, fetch_indicator i outage_net l = (Raises e, l ++ [indicator_url i]))
      /\ Raises (A := DataFrame) HTTPError = Raises e
      /\ [indicator_url "EG.FEC.RNEW.ZS"; indicator_url "EG.USE.PCAP.KG.OE"]
         = [] ++ map indicator_url (firstn 2 indicators))
  /\ snd sample_run = [] ++ map indicator_url indicators.
Proof.
  split.
  - destruct (build_dataset_requests sample_countries outage_net []
                (Raises HTTPError)
                [indicator_url "EG.FEC.RNEW.ZS"; indicator_url "EG.USE.PCAP.KG.OE"])
      as [n [Hn [Hok [[-> Hlog]|[i [e [Hi [He [Ho Hlog]]]]]]]]].
    + vm_compute. reflexivity.
    + vm_compute in Hlog. discriminate Hlog.
    + assert (n = 1%nat) as ->.
      { destruct n as [|[|n]]; [|reflexivity|]; simpl in Hlog; discriminate Hlog. }
      exists i, e. auto.
  - destruct (build_dataset_requests sample_countries sample_net []
                (Returns sample_dataset) (snd sample_run) sample_run_eq)
      as [n [Hn [Hok [[_ Hlog]|[i [e [_ [_ [Ho _]]]]]]]]].
    + exact Hlog.
    + discriminate Ho.
Defined.

(** What each returned frame of the list comprehension holds: the rows
    of the response to its indicator's URL. *)
Lemma mapM_fetch_frames inds : forall net log frames log',
  mapM fetch_indicator inds net log = (Returns frames, log') ->
  Forall2 (fun i f =>
             indicator_name f = i
             /\ exists response,
                  net (indicator_url i) = Some response
                  /\ rows_of_response response = Returns (observations f))
          inds frames.
Proof.
  induction inds as [|i inds IH]; simpl; intros net log frames log' H.
  - unfold ret in H. injection H as <- _. constructor.
  - unfold bind in H.
    destruct (fetch_indicator i net log) as [[f| |] l1] eqn:Hf; try discriminate.
    destruct (mapM fetch_indicator inds net l1) as [[fs| |] l2] eqn:Hfs;
      try discriminate.
    unfold ret in H. injection H as <- _.
    constructor; [|eapply IH; eauto].
    rewrite fetch_indicator_run in Hf.
    destruct (net (indicator_url i)) as [response|]; [|discriminate].
    destruct (rows_of_response response) as [rows| |] eqn:Hr; simpl in Hf;
      try discriminate.
    injection Hf as <- _. simpl. eauto.
Qed.

Lemma fold_merge_raised rest e :
  fold_left (fun acc y => obind acc (fun a => merge a y)) rest (Raises e) = Raises e.
Proof. induction rest as [|t rest IH]; simpl; auto. Qed.

(** A join over a table without key columns raises [KeyError]. *)
Lemma fold_merge_unkeyed rest : forall a,
  (keyed a = false /\ rest <> []) \/ (exists t, In t rest /\ keyed t = false) ->
  fold_left (fun acc y => obind acc (fun a => merge a y)) rest (Returns a)
  = Raises KeyError.
Proof.
  induction rest as [|t rest IH]; intros a H; simpl.
  - destruct H as [[_ H]|[t [[] _]]]. contradiction.
  - unfold merge at 2.
    destruct (keyed a) eqn:Ka, (keyed t) eqn:Kt; simpl;
      try apply fold_merge_raised.
    apply IH. right.
    destruct H as [[H _]|[t' [[<-|Hin] Ht']]]; try congruence. eauto.
Qed.

Lemma table_of_frame_empty f t :
  observations f = [] -> table_of_frame f = Returns t -> keyed t = false.
Proof.
  unfold table_of_frame. intros ->. intros H. injection H as <-. reflexivity.
Qed.

(** X1.  When the four fetches succeed with cells of the API's types
    (country code and name strings, value a number or null) but one
    indicator's response holds no observation at all, [build_dataset]
    raises [KeyError]: the frame built from zero rows has no key
    columns to join on. *)
Theorem build_dataset_empty_indicator
        countries net log frames log' i response :
  mapM fetch_indicator indicators net log = (Returns frames, log') ->
  Forall (fun f => schema_frame f = true) frames ->
  In i indicators ->
  net (indicator_url i) = Some response ->
  rows_of_response response = Returns [] ->
  build_dataset countries net log = (Raises KeyError, log').
Proof.
  intros Hf Hschema Hi Hnet Hrows.
  destruct (tables_of_frames frames Hschema) as [tables Ht].
  rewrite build_dataset_run, Hf. unfold merge_frames. rewrite Ht. simpl.
  assert (Hex : exists t, In t tables /\ keyed t = false).
  { pose proof (mapM_fetch_frames _ _ _ _ _ Hf) as Hfr.
    apply for_each_Forall2 in Ht.
    clear Hf Hschema. revert tables Ht Hi.
    induction Hfr as [|j f inds fs [_ [r [Hr Hobs]]] _ IH];
      intros tables Ht Hi; [contradiction|].
    inversion Ht as [|? t ? ts Hft Hts]; subst.
    destruct Hi as [->|Hi].
    - exists t. split; [left; reflexivity|].
      apply (table_of_frame_empty f); [|exact Hft].
      rewrite Hnet in Hr. injection Hr as <-. congruence.
    - destruct (IH ts Hts Hi) as [t' [Hin Hk]]. exists t'. split; [right|]; auto. }
  assert (Hlen : List.length tables = 4%nat).
  { apply for_each_Forall2 in Ht. apply Forall2_length in Ht.
    pose proof (mapM_fetch_names _ _ _ _ _ Hf) as Hn.
    apply (f_equal (@List.length string)) in Hn. rewrite length_map in Hn.
    rewrite <- Ht, Hn. reflexivity. }
  destruct tables as [|t0 rest]; [discriminate|]. unfold reduce.
  rewrite fold_merge_unkeyed; [reflexivity|].
  destruct Hex as [t [[<-|Hin] Hk]]; [left|right; eauto].
  split; [exact Hk|]. destruct rest; discriminate.
Qed.

(** The run on integer pages for energy use and population and an empty
    page for GDP per capita. *)
Lemma build_dataset_empty_indicator_witness :
  build_dataset ["USA"] empty_gdp_net []
  = (Raises KeyError, map indicator_url indicators).
Proof.
  assert (Hf : exists frames,
             mapM fetch_indicator indicators empty_gdp_net []
             = (Returns frames, map indicator_url indicators)
             /\ Forall (fun f => schema_frame f = true) frames).
  { eexists. split; [vm_compute; reflexivity|]. repeat constructor. }
  destruct Hf as [frames [Hf Hs]].
  apply (build_dataset_empty_indicator ["USA"] empty_gdp_net []
           frames (map indicator_url indicators) "NY.GDP.PCAP.KD"
           (mkResponse 200 (Some (JList [JDict [("page", JInt 1)]; JList []])))
           Hf Hs).
  - right. right. right. left. reflexivity.
  - reflexivity.
  - reflexivity.
Defined.

(* ================================================================== *)
(** ** The rows [build_dataset] keeps *)
(* ================================================================== *)

Lemma sample_fetch_eq :
  mapM fetch_indicator indicators sample_net [] = (Returns sample_fetched, snd sample_run).
Proof. vm_compute. reflexivity. Qed.




(** X4.  The table [build_dataset] returns has the key columns and
    exactly the six value columns renewable_share,
    energy_use_per_capita, population, gdp_per_capita, total_energy_use
    and energy_intensity, in this order, and every row has one cell for
    each of them. *)
Theorem build_dataset_columns countries net log df log' :
  build_dataset countries net log = (Returns df, log') ->
  keyed df = true
  /\ columns df = ["renewable_share"; "energy_use_per_capita"; "population";
                   "gdp_per_capita"; "total_energy_use"; "energy_intensity"]
  /\ Forall (fun r => List.length (cells r) = 6%nat) (rows df).
Proof.
  intros Hb.
  destruct (build_dataset_inv _ _ _ _ _ Hb) as [frames [merged [Hf Hm]]].
  destruct (build_dataset_shape countries _ _ _ _ _ Hf Hm) as [E _].
  split; [|split].
  - rewrite E in Hb. injection Hb as <-. reflexivity.
  - rewrite E in Hb. injection Hb as <-. reflexivity.
  - apply Forall_forall. intros r Hin.
    destruct (final_row_shape _ _ _ _ _ _ Hb Hin)
      as [_ [m [share [use [pop [gdp [_ [_ [_ [_ [_ ->]]]]]]]]]]].
    reflexivity.
Qed.

Lemma build_dataset_columns_witness :
  (keyed sample_dataset = true
   /\ columns sample_dataset
      = ["renewable_share"; "energy_use_per_capita"; "population";
         "gdp_per_capita"; "total_energy_use"; "energy_intensity"]
   /\ Forall (fun r => List.length (cells r) = 6%nat) (rows sample_dataset))
  /\ Forall (fun r => List.length (cells r) = 6%nat)
            (rows (mkDataFrame true final_columns [integer_row])).
Proof.
  split.
  - exact (build_dataset_columns sample_countries sample_net [] sample_dataset
             (snd sample_run) sample_run_eq).
  - apply (build_dataset_columns ["USA"] integer_net []
             (mkDataFrame true final_columns [integer_row])
             (map indicator_url indicators)).
    vm_compute. reflexivity.
Defined.

(** X5.  When the country list names no code of length three (an empty
    list in particular), the table [build_dataset] returns has no
    rows. *)
Theorem build_dataset_no_country countries net log df log' :
  build_dataset countries net log = (Returns df, log') ->
  (forall c, In c countries -> String.length c <> 3%nat) ->
  rows df = [].
Proof.
  intros Hb Hno.
  destruct (rows df) as [|r l] eqn:Hr; [reflexivity|].
  assert (Hin : In r (rows df)) by (rewrite Hr; left; reflexivity).
  destruct (final_row_shape _ _ _ _ _ _ Hb Hin)
    as [_ [m [share [use [pop [gdp [_ [Hmask [Hisin _]]]]]]]]].
  unfold year_and_code_mask in Hmask. apply andb_true_iff in Hmask as [_ Hl].
  apply Nat.eqb_eq in Hl.
  unfold isin, mem in Hisin. apply existsb_exists in Hisin as [c [Hcin Hceq]].
  apply String.eqb_eq in Hceq. exfalso. apply (Hno c Hcin). congruence.
Qed.

(** The run on a World Bank that reports the United States as US, with
    a country list that asks for US: the only row has a code of length
    two and is dropped. *)
Lemma build_dataset_no_country_witness :
  exists df,
    build_dataset ["US"; "FRANCE"] two_letter_net []
    = (Returns df, map indicator_url indicators)
    /\ rows df = [].
Proof.
  assert (H : exists df, build_dataset ["US"; "FRANCE"] two_letter_net []
                         = (Returns df, map indicator_url indicators)).
  { eexists. vm_compute. reflexivity. }
  destruct H as [df H]. exists df. split; [exact H|].
  apply (build_dataset_no_country ["US"; "FRANCE"] two_letter_net [] df
           (map indicator_url indicators) H).
  intros c [<-|[<-|[]]]; discriminate.
Defined.

(* ================================================================== *)
(** ** The order of the joined rows *)
(* ================================================================== *)

Lemma ascii_compare_refl c : Ascii.compare c c = Eq.
Proof. unfold Ascii.compare. apply N.compare_refl. Qed.

Lemma ascii_compare_lt_trans a b c :
  Ascii.compare a b = Lt -> Ascii.compare b c = Lt -> Ascii.compare a c = Lt.
Proof.
  unfold Ascii.compare. rewrite !N.compare_lt_iff. apply N.lt_trans.
Qed.

Lemma string_compare_lt_trans : forall s1 s2 s3,
  String.compare s1 s2 = Lt -> String.compare s2 s3 = Lt -> String.compare s1 s3 = Lt.
Proof.
  induction s1 as [|c1 s1 IH]; intros [|c2 s2] [|c3 s3]; simpl;
    try discriminate; auto.
  destruct (Ascii.compare c1 c2) eqn:H12; try discriminate;
    destruct (Ascii.compare c2 c3) eqn:H23; try discriminate; intros Ha Hb.
  - apply Ascii.compare_eq_iff in H12, H23. subst.
    rewrite ascii_compare_refl. eapply IH; eauto.
  - apply Ascii.compare_eq_iff in H12. subst. rewrite H23. reflexivity.
  - apply Ascii.compare_eq_iff in H23. subst. rewrite H12. reflexivity.
  - rewrite (ascii_compare_lt_trans _ _ _ H12 H23). reflexivity.
Qed.

Lemma key_compare_antisym a b : key_compare a b = CompOpp (key_compare b a).
Proof.
  destruct a as [[c1 n1] y1], b as [[c2 n2] y2]; simpl.
  rewrite (String.compare_antisym c1 c2), (String.compare_antisym n1 n2),
    (Z.compare_antisym y2 y1).
  destruct (String.compare c2 c1); simpl; auto.
  destruct (String.compare n2 n1); simpl; auto.
Qed.

Lemma key_lt_irrefl k : ~ key_lt k k.
Proof.
  unfold key_lt. rewrite (proj2 (key_compare_eq k k) eq_refl). discriminate.
Qed.

Lemma key_lt_trans a b c : key_lt a b -> key_lt b c -> key_lt a c.
Proof.
  destruct a as [[c1 n1] y1], b as [[c2 n2] y2], c as [[c3 n3] y3].
  unfold key_lt; simpl.
  destruct (String.compare c1 c2) eqn:C12; try discriminate;
    destruct (String.compare c2 c3) eqn:C23; try discriminate.
  - apply String.compare_eq_iff in C12, C23. subst.
    rewrite string_compare_refl.
    destruct (String.compare n1 n2) eqn:N12; try discriminate;
      destruct (String.compare n2 n3) eqn:N23; try discriminate.
    + apply String.compare_eq_iff in N12, N23. subst.
      rewrite string_compare_refl. rewrite !Z.compare_lt_iff. apply Z.lt_trans.
    + apply String.compare_eq_iff in N12. subst. rewrite N23. auto.
    + apply String.compare_eq_iff in N23. subst. rewrite N12. auto.
    + rewrite (string_compare_lt_trans _ _ _ N12 N23). auto.
  - apply String.compare_eq_iff in C12. subst. rewrite C23. auto.
  - apply String.compare_eq_iff in C23. subst. rewrite C12. auto.
  - rewrite (string_compare_lt_trans _ _ _ C12 C23). auto.
Qed.

Lemma key_lt_le a b : key_lt a b -> key_le a b.
Proof. unfold key_lt, key_le. congruence. Qed.

Lemma key_le_refl k : key_le k k.
Proof.
  unfold key_le. rewrite (proj2 (key_compare_eq k k) eq_refl). discriminate.
Qed.

Lemma insert_key_sorted k l :
  StronglySorted key_lt l -> StronglySorted key_lt (insert_key k l).
Proof.
  induction 1 as [|k' l Hs IH Hall]; simpl.
  - repeat constructor.
  - destruct (key_compare k k') eqn:Hc.
    + constructor; assumption.
    + constructor; [constructor; assumption|].
      constructor; [exact Hc|].
      eapply Forall_impl; [|exact Hall]. intros x Hx. eapply key_lt_trans; eauto.
    + constructor; [exact IH|].
      apply Forall_forall. intros x Hx. apply in_insert_key in Hx as [->|Hx].
      * unfold key_lt. rewrite key_compare_antisym, Hc. reflexivity.
      * rewrite Forall_forall in Hall. auto.
Qed.

Lemma sorted_keys_sorted ks : StronglySorted key_lt (sorted_keys ks).
Proof.
  induction ks as [|k ks IH]; simpl; [constructor|].
  apply insert_key_sorted. exact IH.
Qed.

Lemma rows_for_key_key nl nr L R k r :
  In r (rows_for_key nl nr L R k) -> key_of r = k.
Proof.
  intros H. apply rows_for_key_inv in H
    as [[a [b [_ [_ [Hk [_ ->]]]]]]|[[a [_ [Hk [_ ->]]]]|[b [_ [Hk [_ ->]]]]]];
    exact Hk.
Qed.

(** The keys of an outer join are in ascending order. *)
Lemma sorted_groups (g : Key -> list Row) ks :
  StronglySorted key_lt ks ->
  (forall k r, In r (g k) -> key_of r = k) ->
  StronglySorted key_le (map key_of (flat_map g ks)).
Proof.
  intros Hs Hg. induction Hs as [|k ks Hs IH Hall]; simpl; [constructor|].
  rewrite map_app.
  assert (Hrest : Forall (key_le k) (map key_of (flat_map g ks))).
  { apply Forall_forall. intros x Hx. apply in_map_iff in Hx as [r [<- Hr]].
    apply in_flat_map in Hr as [k' [Hk' Hr]]. rewrite (Hg _ _ Hr).
    rewrite Forall_forall in Hall. apply key_lt_le. auto. }
  assert (Hgk : forall r, In r (g k) -> key_of r = k) by (intros; eauto).
  induction (g k) as [|r l IHl]; simpl; [exact IH|].
  constructor.
  - apply IHl. intros; apply Hgk; right; assumption.
  - rewrite (Hgk r (or_introl eq_refl)). apply Forall_app. split; [|exact Hrest].
    apply Forall_forall. intros x Hx. apply in_map_iff in Hx as [r' [<- Hr']].
    rewrite (Hgk r' (or_intror Hr')). apply key_le_refl.
Qed.

(** With at most one row per key in each group they are strictly
    ascending. *)
Lemma strict_groups (g : Key -> list Row) ks :
  StronglySorted key_lt ks ->
  (forall k r, In r (g k) -> key_of r = k) ->
  (forall k, (List.length (g k) <= 1)%nat) ->
  StronglySorted key_lt (map key_of (flat_map g ks)).
Proof.
  intros Hs Hg Hone. induction Hs as [|k ks Hs IH Hall]; simpl; [constructor|].
  rewrite map_app.
  assert (Hrest : Forall (key_lt k) (map key_of (flat_map g ks))).
  { apply Forall_forall. intros x Hx. apply in_map_iff in Hx as [r [<- Hr]].
    apply in_flat_map in Hr as [k' [Hk' Hr]]. rewrite (Hg _ _ Hr).
    rewrite Forall_forall in Hall. auto. }
  pose proof (Hone k) as H1. pose proof (Hg k) as Hgk.
  destruct (g k) as [|r [|r' l]]; simpl in *; [exact IH| |lia].
  constructor; [exact IH|]. rewrite (Hgk r (or_introl eq_refl)). exact Hrest.
Qed.

Lemma filter_key_unique k l :
  NoDup (map key_of l) -> (List.length (filter (has_key k) l) <= 1)%nat.
Proof.
  induction l as [|a l IH]; simpl; intros Hnd; [lia|].
  inversion Hnd as [|? ? Hnotin Hnd']; subst.
  destruct (has_key k a) eqn:Hk; [|auto].
  apply has_key_iff in Hk. simpl.
  destruct (filter (has_key k) l) as [|b l'] eqn:Hf; [simpl; lia|].
  exfalso. apply Hnotin.
  assert (Hb : In b (filter (has_key k) l)) by (rewrite Hf; left; reflexivity).
  apply in_filter_key in Hb as [Hb Hkb].
  apply in_map_iff. exists b. split; [congruence|exact Hb].
Qed.

Lemma rows_for_key_unique nl nr L R k :
  NoDup (map key_of L) -> NoDup (map key_of R) ->
  (List.length (rows_for_key nl nr L R k) <= 1)%nat.
Proof.
  intros HL HR. unfold rows_for_key.
  pose proof (filter_key_unique k L HL) as H1.
  pose proof (filter_key_unique k R HR) as H2.
  destruct (filter (has_key k) L) as [|a [|a' ls]]; simpl in *; try lia.
  - rewrite length_map. exact H2.
  - destruct (filter (has_key k) R) as [|b [|b' rs]]; simpl in *; lia.
Qed.

Lemma strictly_sorted_NoDup l : StronglySorted key_lt l -> NoDup l.
Proof.
  induction 1 as [|k l Hs IH Hall]; constructor; [|exact IH].
  intros Hin. rewrite Forall_forall in Hall.
  exact (key_lt_irrefl k (Hall k Hin)).
Qed.

Lemma merge_sorted a b m :
  merge a b = Returns m -> StronglySorted key_le (keys m).
Proof.
  unfold merge. destruct (keyed a && keyed b); [|discriminate].
  intros H. injection H as <-. unfold keys, outer_join; simpl.
  apply sorted_groups; [apply sorted_keys_sorted|].
  intros k r. apply rows_for_key_key.
Qed.

Lemma merge_strict a b m :
  merge a b = Returns m ->
  NoDup (keys a) -> NoDup (keys b) ->
  StronglySorted key_lt (keys m).
Proof.
  unfold merge. destruct (keyed a && keyed b); [|discriminate].
  intros H Ha Hb. injection H as <-. unfold keys, outer_join; simpl.
  apply strict_groups; [apply sorted_keys_sorted| |].
  - intros k r. apply rows_for_key_key.
  - intros k. apply rows_for_key_unique; rewrite lift_rows_keys; assumption.
Qed.

Lemma sorted_filter {A} (R : Key -> Key -> Prop) (f : A -> Key) (p : A -> bool) l :
  StronglySorted R (map f l) -> StronglySorted R (map f (filter p l)).
Proof.
  induction l as [|a l IH]; simpl; intros H; [constructor|].
  inversion H as [|? ? Hs Hall]; subst.
  destruct (p a); simpl; [|auto].
  constructor; [auto|].
  rewrite Forall_forall in *. intros x Hx. apply Hall.
  apply in_map_iff in Hx as [y [<- Hy]]. apply filter_In in Hy as [Hy _].
  apply in_map. exact Hy.
Qed.

Lemma derived_keys l :
  map key_of (map with_intensity (map with_total l)) = map key_of l.
Proof. rewrite !map_map. apply map_ext. reflexivity. Qed.

(** The four tables and the three joins behind a successful
    [merge_frames]. *)
Lemma merge_frames_chain frames merged :
  map indicator_name frames = indicators ->
  merge_frames frames = Returns merged ->
  exists t1 t2 t3 t4 m12 m123,
    Forall2 (fun f t => table_of_frame f = Returns t) frames [t1; t2; t3; t4]
    /\ merge t1 t2 = Returns m12
    /\ merge m12 t3 = Returns m123
    /\ merge m123 t4 = Returns merged.
Proof.
  intros Hn. unfold merge_frames.
  destruct frames as [|f1 [|f2 [|f3 [|f4 [|f5 fs]]]]]; try discriminate.
  simpl.
  destruct (table_of_frame f1) as [t1| |] eqn:T1; simpl; try discriminate.
  destruct (table_of_frame f2) as [t2| |] eqn:T2; simpl; try discriminate.
  destruct (table_of_frame f3) as [t3| |] eqn:T3; simpl; try discriminate.
  destruct (table_of_frame f4) as [t4| |] eqn:T4; simpl; try discriminate.
  destruct (merge t1 t2) as [m12| |] eqn:M12; simpl; try discriminate.
  destruct (merge m12 t3) as [m123| |] eqn:M123; simpl; try discriminate.
  intros M. exists t1, t2, t3, t4, m12, m123.
  split; [repeat constructor; assumption|]. auto.
Qed.

(** X7.  The rows of the table [build_dataset] returns are in ascending
    order of (country_code, country, year): the last outer join orders
    its result by key, and the filters keep the order. *)
Theorem build_dataset_sorted countries net log df log' :
  build_dataset countries net log = (Returns df, log') ->
  StronglySorted key_le (keys df).
Proof.
  intros Hb.
  destruct (build_dataset_inv _ _ _ _ _ Hb) as [frames [merged [Hf Hm]]].
  destruct (build_dataset_shape countries _ _ _ _ _ Hf Hm) as [E _].
  rewrite E in Hb. injection Hb as <-. unfold keys; simpl.
  rewrite derived_keys.
  destruct (merge_frames_chain _ _ (mapM_fetch_names _ _ _ _ _ Hf) Hm)
    as [t1 [t2 [t3 [t4 [m12 [m123 [_ [_ [_ M]]]]]]]]].
  do 3 apply sorted_filter. exact (merge_sorted _ _ _ M).
Qed.

Lemma build_dataset_sorted_witness : StronglySorted key_le (keys sample_dataset).
Proof.
  exact (build_dataset_sorted sample_countries sample_net [] sample_dataset
           (snd sample_run) sample_run_eq).
Defined.

Lemma typed_row_key b o r :
  typed_row b o = Returns r ->
  obs_join_key o = (JStr (country_code r), JStr (country r), year r).
Proof.
  intros H. destruct (typed_row_inv _ _ _ H) as [v [_ [E _]]]. exact E.
Qed.

Lemma table_of_frame_NoDup f t :
  table_of_frame f = Returns t ->
  NoDup (map obs_join_key (observations f)) ->
  NoDup (keys t).
Proof.
  unfold table_of_frame, keys.
  destruct (observations f) as [|o obs].
  { intros H _. injection H as <-. constructor. }
  destruct (for_each _ (o :: obs)) as [rs| |] eqn:Hrs;
    intros H Hnd; simpl in H; try discriminate H.
  injection H as <-. simpl.
  apply for_each_Forall2 in Hrs.
  assert (E : map obs_join_key (o :: obs)
              = map (fun k : Key => let '(c, n, y) := k in (JStr c, JStr n, y))
                    (map key_of rs)).
  { clear Hnd. revert Hrs.
    generalize (forallb (fun o => is_int (obs_value o)) (o :: obs)).
    generalize (o :: obs). intros l b Hrs.
    induction Hrs as [|x y xs ys Hxy _ IH]; simpl; [reflexivity|].
    rewrite (typed_row_key _ _ _ Hxy), IH. reflexivity. }
  rewrite E in Hnd. eapply NoDup_map_inv. exact Hnd.
Qed.

(** X6.  If no fetched frame repeats a (country_code, country, year)
    key, the table [build_dataset] returns has at most one row per key,
    and its rows are in strictly ascending key order. *)
Theorem build_dataset_unique_keys countries net log frames df log' :
  mapM fetch_indicator indicators net log = (Returns frames, log') ->
  Forall (fun f => NoDup (map obs_join_key (observations f))) frames ->
  build_dataset countries net log = (Returns df, log') ->
  NoDup (keys df) /\ StronglySorted key_lt (keys df).
Proof.
  intros Hf Hnd Hb.
  assert (Hs : StronglySorted key_lt (keys df)).
  { destruct (build_dataset_inv _ _ _ _ _ Hb) as [frames' [merged [Hf' Hm]]].
    rewrite Hf in Hf'. injection Hf' as <-.
    destruct (build_dataset_shape countries _ _ _ _ _ Hf Hm) as [E _].
    rewrite E in Hb. injection Hb as <-. unfold keys; simpl.
    rewrite derived_keys.
    destruct (merge_frames_chain _ _ (mapM_fetch_names _ _ _ _ _ Hf) Hm)
      as [t1 [t2 [t3 [t4 [m12 [m123 [Ht [M12 [M123 M]]]]]]]]].
    inversion Ht as [|f1 ? fs1 ? T1 Ht1]; subst.
    inversion Ht1 as [|f2 ? fs2 ? T2 Ht2]; subst.
    inversion Ht2 as [|f3 ? fs3 ? T3 Ht3]; subst.
    inversion Ht3 as [|f4 ? fs4 ? T4 Ht4]; subst.
    inversion Hnd as [|? ? N1 Hnd1]; subst.
    inversion Hnd1 as [|? ? N2 Hnd2]; subst.
    inversion Hnd2 as [|? ? N3 Hnd3]; subst.
    inversion Hnd3 as [|? ? N4 _]; subst.
    pose proof (table_of_frame_NoDup _ _ T1 N1) as K1.
    pose proof (table_of_frame_NoDup _ _ T2 N2) as K2.
    pose proof (table_of_frame_NoDup _ _ T3 N3) as K3.
    pose proof (table_of_frame_NoDup _ _ T4 N4) as K4.
    pose proof (strictly_sorted_NoDup _ (merge_strict _ _ _ M12 K1 K2)) as K12.
    pose proof (strictly_sorted_NoDup _ (merge_strict _ _ _ M123 K12 K3)) as K123.
    do 3 apply sorted_filter. exact (merge_strict _ _ _ M K123 K4). }
  split; [apply strictly_sorted_NoDup|]; exact Hs.
Qed.

Lemma build_dataset_unique_keys_witness :
  NoDup (keys sample_dataset) /\ StronglySorted key_lt (keys sample_dataset).
Proof.
  apply (build_dataset_unique_keys sample_countries sample_net [] sample_fetched
           sample_dataset (snd sample_run) sample_fetch_eq);
    [|exact sample_run_eq].
  repeat (constructor;
          [repeat (constructor; [simpl; intuition discriminate|]); constructor|]).
  constructor.
Defined.

(* ================================================================== *)
(** ** Coverage of the typed tables, and column types *)
(* ================================================================== *)

Lemma fold_merge_modelled rest : forall acc,
  acc <> Unmodelled ->
  fold_left (fun acc y => obind acc (fun a => merge a y)) rest acc <> Unmodelled.
Proof.
  induction rest as [|t rest IH]; intros acc H; simpl; [exact H|].
  apply IH. destruct acc as [a|e|]; simpl; try discriminate; [|contradiction].
  unfold merge. destruct (keyed a && keyed t); discriminate.
Qed.

Lemma clean_modelled countries merged : clean countries merged <> Unmodelled.
Proof.
  unfold clean, dropna. destruct (keyed merged); [|discriminate].
  simpl. destruct (col_index _ _); [|discriminate]. simpl.
  destruct (col_index _ _); simpl; discriminate.
Qed.

Lemma assign_binop_modelled name op a b df : assign_binop name op a b df <> Unmodelled.
Proof.
  unfold assign_binop.
  destruct (col_index a (columns df)); [|discriminate].
  destruct (col_index b (columns df)); [|discriminate].
  destruct (col_index name (columns df)); discriminate.
Qed.

(** Every run of [build_dataset] whose fetched frames are within the
    schema is covered by the typed tables: it returns a table or
    raises. *)
Lemma build_dataset_covered countries net log :
  (forall frames log',
      mapM fetch_indicator indicators net log = (Returns frames, log') ->
      Forall (fun f => schema_frame f = true) frames) ->
  fst (build_dataset countries net log) <> Unmodelled.
Proof.
  intros Hschema. rewrite build_dataset_run.
  destruct (mapM_fetch_stops indicators net log)
    as [n [_ [_ [[_ [frames Hf]]|[i [e [_ [_ Hf]]]]]]]]; rewrite Hf; simpl;
    [|discriminate].
  destruct (tables_of_frames frames (Hschema _ _ Hf)) as [tables Ht].
  unfold merge_frames. rewrite Ht. simpl.
  destruct (reduce merge tables) as [merged| |] eqn:Hm; simpl; try discriminate.
  - destruct (clean countries merged) as [cleaned| |] eqn:Hc; simpl; try discriminate.
    + unfold derive.
      destruct (assign_binop "total_energy_use" _ _ _ cleaned) as [d| |] eqn:Hd;
        simpl; try discriminate.
      * apply assign_binop_modelled.
      * now apply assign_binop_modelled in Hd.
    + now apply clean_modelled in Hc.
  - exfalso. unfold reduce in Hm. destruct tables as [|t0 rest]; [discriminate Hm|].
    revert Hm. apply fold_merge_modelled. discriminate.
Qed.

(** *** One type per column *)

Lemma typed_rows_dtypes b l rs :
  for_each (typed_row b) l = Returns rs ->
  (b = true -> forallb (fun o => is_int (obs_value o)) l = true) ->
  Forall (fun r => dtypes r = [b]) rs.
Proof.
  intros H. apply for_each_Forall2 in H.
  induction H as [|o r l rs Ho _ IH]; intros Hb; constructor.
  - destruct (typed_row_inv _ _ _ Ho) as [v [Hv [_ Hc]]].
    unfold dtypes. rewrite Hc. simpl. f_equal.
    destruct b.
    + specialize (Hb eq_refl). simpl in Hb. apply andb_true_iff in Hb as [Hb _].
      destruct (obs_value o); try discriminate Hb. simpl in Hv.
      destruct (int64_range z); [|discriminate Hv]. injection Hv as <-. reflexivity.
    + destruct (obs_value o); simpl in Hv; try discriminate Hv;
        try (injection Hv as <-; reflexivity).
      destruct (int64_range z); [|discriminate Hv]. injection Hv as <-. reflexivity.
  - apply IH. intros E. specialize (Hb E). simpl in Hb.
    apply andb_true_iff in Hb. tauto.
Qed.

Lemma table_of_frame_dtypes f t :
  observations f <> [] -> table_of_frame f = Returns t ->
  exists s, List.length s = 1%nat /\ Forall (fun r => dtypes r = s) (rows t).
Proof.
  unfold table_of_frame. intros Hne.
  destruct (observations f) as [|o obs]; [contradiction|].
  destruct (for_each _ (o :: obs)) as [rs| |] eqn:Hrs; simpl; try discriminate.
  intros H. injection H as <-. simpl.
  exists [forallb (fun o => is_int (obs_value o)) (o :: obs)]. split; [reflexivity|].
  eapply typed_rows_dtypes; [exact Hrs|]. auto.
Qed.

Lemma dtypes_as_float64 r :
  dtypes (as_float64 r) = repeat false (List.length (cells r)).
Proof.
  unfold dtypes, as_float64; simpl. rewrite map_map. simpl.
  induction (cells r) as [|c l IH]; simpl; [reflexivity|]. rewrite IH. reflexivity.
Qed.

Lemma dtypes_padding n : map is_int64 (repeat (Float64 nan) n) = repeat false n.
Proof. induction n as [|n IH]; simpl; [reflexivity|]. rewrite IH. reflexivity. Qed.

(** A row without a partner on the other side is what [unmatched]
    looks for. *)
Lemma unmatched_true xs ys x :
  In x xs -> (forall y, In y ys -> key_of y <> key_of x) -> unmatched xs ys = true.
Proof.
  intros Hx Hno. unfold unmatched. apply existsb_exists. exists x. split; [exact Hx|].
  apply negb_true_iff. apply not_true_iff_false. intros H.
  apply existsb_exists in H as [y [Hy Hk]]. apply has_key_iff in Hk.
  apply (Hno y Hy). congruence.
Qed.

(** The rows of a side as they enter the join have one type per
    column, all float64 when the side was padded. *)
Lemma lift_rows_dtypes (b : bool) l s :
  Forall (fun r => dtypes r = s) l ->
  Forall (fun r => dtypes r = if b then repeat false (List.length s) else s)
         (if b then map as_float64 l else l).
Proof.
  destruct b; [|auto]. intros H. apply Forall_forall. intros r' Hr'.
  apply in_map_iff in Hr' as [r [<- Hr]]. rewrite Forall_forall in H.
  rewrite dtypes_as_float64. f_equal.
  rewrite <- (H r Hr). unfold dtypes. symmetry. apply length_map.
Qed.

(** An outer join keeps one type per column. *)
Lemma merge_dtypes a b m sa sb :
  merge a b = Returns m ->
  Forall (fun r => dtypes r = sa) (rows a) -> List.length sa = List.length (columns a) ->
  Forall (fun r => dtypes r = sb) (rows b) -> List.length sb = List.length (columns b) ->
  exists s, List.length s = List.length (columns m)
            /\ Forall (fun r => dtypes r = s) (rows m).
Proof.
  unfold merge. destruct (keyed a && keyed b); [|discriminate].
  intros H Ha La Hb Lb. injection H as <-. simpl.
  pose proof (lift_rows_dtypes (unmatched (rows b) (rows a)) _ _ Ha) as HL.
  pose proof (lift_rows_dtypes (unmatched (rows a) (rows b)) _ _ Hb) as HR.
  assert (UL : forall a', In a' (if unmatched (rows b) (rows a)
                                 then map as_float64 (rows a) else rows a) ->
                          exists a0, In a0 (rows a) /\ lifted a0 a')
    by (intros a'; apply in_lift_rows).
  assert (UR : forall b', In b' (if unmatched (rows a) (rows b)
                                 then map as_float64 (rows b) else rows b) ->
                          exists b0, In b0 (rows b) /\ lifted b0 b')
    by (intros b'; apply in_lift_rows).
  assert (UL' : forall a0, In a0 (rows a) ->
                  exists a', In a' (if unmatched (rows b) (rows a)
                                    then map as_float64 (rows a) else rows a)
                             /\ lifted a0 a')
    by (intros a0; apply lift_rows_in).
  assert (UR' : forall b0, In b0 (rows b) ->
                  exists b', In b' (if unmatched (rows a) (rows b)
                                    then map as_float64 (rows b) else rows b)
                             /\ lifted b0 b')
    by (intros b0; apply lift_rows_in).
  set (L := if unmatched (rows b) (rows a) then map as_float64 (rows a) else rows a) in *.
  set (R := if unmatched (rows a) (rows b) then map as_float64 (rows b) else rows b) in *.
  clearbody L R.
  exists ((if unmatched (rows b) (rows a) then repeat false (List.length sa) else sa)
          ++ (if unmatched (rows a) (rows b) then repeat false (List.length sb) else sb)).
  split.
  - unfold merge_columns. rewrite !length_app, !length_map.
    destruct (unmatched (rows b) (rows a)), (unmatched (rows a) (rows b));
      rewrite ?repeat_length; lia.
  - rewrite Forall_forall in HL, HR. apply Forall_forall. intros r Hin.
    apply outer_join_inv in Hin
      as [[a' [b' [Ha' [Hb' [_ ->]]]]]|[[a' [Ha' [Hno ->]]]|[b' [Hb' [Hno ->]]]]];
      unfold dtypes; simpl; rewrite map_app.
    + f_equal; [apply (HL _ Ha')|apply (HR _ Hb')].
    + f_equal; [apply (HL _ Ha')|].
      destruct (UL _ Ha') as [a0 [Ha0 Hl]].
      rewrite (unmatched_true (rows a) (rows b) a0 Ha0).
      * rewrite dtypes_padding, Lb. reflexivity.
      * intros y Hy Hk. destruct (UR' _ Hy) as [y' [Hy' Hly]].
        apply (Hno y' Hy'). rewrite (lifted_key _ _ Hly), (lifted_key _ _ Hl). exact Hk.
    + f_equal; [|apply (HR _ Hb')].
      destruct (UR _ Hb') as [b0 [Hb0 Hl]].
      rewrite (unmatched_true (rows b) (rows a) b0 Hb0).
      * rewrite dtypes_padding, La. reflexivity.
      * intros y Hy Hk. destruct (UL' _ Hy) as [y' [Hy' Hly]].
        apply (Hno y' Hy'). rewrite (lifted_key _ _ Hly), (lifted_key _ _ Hl). exact Hk.
Qed.

Lemma is_int64_exact_at i r : is_int64 (exact_at i r) = nth i (dtypes r) false.
Proof.
  unfold exact_at, dtypes.
  change false with (is_int64 (Float64 nan)). symmetry. apply map_nth.
Qed.

Lemma is_int64_cell_mul a b : is_int64 (cell_mul a b) = is_int64 a && is_int64 b.
Proof. destruct a, b; reflexivity. Qed.

(** In the table [build_dataset] returns all cells of a column have
    the same type, so that the product and the quotient, which pandas
    computes column by column, can be read cell by cell: the total
    energy use is int64 exactly when energy use and population are, and
    the energy intensity is float64. *)
Lemma build_dataset_dtypes countries net log df log' :
  build_dataset countries net log = (Returns df, log') ->
  exists share use pop gdp,
    Forall (fun r => dtypes r = [share; use; pop; gdp; use && pop; false]) (rows df).
Proof.
  intros Hb.
  destruct (build_dataset_inv _ _ _ _ _ Hb) as [frames [merged [Hf Hm]]].
  destruct (build_dataset_shape countries _ _ _ _ _ Hf Hm) as [E L].
  pose proof (mapM_fetch_names _ _ _ _ _ Hf) as Hn.
  destruct (merge_frames_shape _ _ Hn Hm) as [_ [Hcols _]].
  destruct (merge_frames_chain _ _ Hn Hm)
    as [t1 [t2 [t3 [t4 [m12 [m123 [Ht [M12 [M123 M]]]]]]]]].
  inversion Ht as [|f1 ? fs1 ? T1 Ht1]; subst.
  inversion Ht1 as [|f2 ? fs2 ? T2 Ht2]; subst.
  inversion Ht2 as [|f3 ? fs3 ? T3 Ht3]; subst.
  inversion Ht3 as [|f4 ? fs4 ? T4 Ht4]; subst.
  destruct (merge_inv _ _ _ M12) as [K1 [K2 _]].
  destruct (merge_inv _ _ _ M123) as [_ [K3 _]].
  destruct (merge_inv _ _ _ M) as [_ [K4 _]].
  pose proof (table_of_frame_keyed _ _ T1 K1) as N1.
  pose proof (table_of_frame_keyed _ _ T2 K2) as N2.
  pose proof (table_of_frame_keyed _ _ T3 K3) as N3.
  pose proof (table_of_frame_keyed _ _ T4 K4) as N4.
  destruct (table_of_frame_single _ _ N1 T1) as [[_ [C1 _]] _].
  destruct (table_of_frame_single _ _ N2 T2) as [[_ [C2 _]] _].
  destruct (table_of_frame_single _ _ N3 T3) as [[_ [C3 _]] _].
  destruct (table_of_frame_single _ _ N4 T4) as [[_ [C4 _]] _].
  destruct (table_of_frame_dtypes _ _ N1 T1) as [s1 [L1 D1]].
  destruct (table_of_frame_dtypes _ _ N2 T2) as [s2 [L2 D2]].
  destruct (table_of_frame_dtypes _ _ N3 T3) as [s3 [L3 D3]].
  destruct (table_of_frame_dtypes _ _ N4 T4) as [s4 [L4 D4]].
  destruct (merge_dtypes _ _ _ _ _ M12 D1 (eq_trans L1 (eq_sym C1))
              D2 (eq_trans L2 (eq_sym C2))) as [s12 [L12 D12]].
  destruct (merge_dtypes _ _ _ _ _ M123 D12 L12
              D3 (eq_trans L3 (eq_sym C3))) as [s123 [L123 D123]].
  destruct (merge_dtypes _ _ _ _ _ M D123 L123
              D4 (eq_trans L4 (eq_sym C4))) as [s [Ls Ds]].
  rewrite Hcols in Ls.
  destruct s as [|share [|use [|pop [|gdp [|x s']]]]]; try discriminate Ls.
  exists share, use, pop, gdp.
  rewrite E in Hb. injection Hb as <-. simpl.
  apply Forall_forall. intros r Hin.
  apply in_map_iff in Hin as [r1 [<- Hin]].
  apply in_map_iff in Hin as [m [<- Hin]].
  apply filter_In in Hin as [Hin _].
  apply filter_In in Hin as [Hin _].
  apply filter_In in Hin as [Hin _].
  rewrite Forall_forall in Ds. pose proof (Ds m Hin) as Dm.
  unfold dtypes, with_intensity, with_total, with_cells; simpl.
  rewrite !map_app. fold (dtypes m). rewrite Dm. simpl.
  rewrite is_int64_cell_mul, !is_int64_exact_at, Dm. reflexivity.
Qed.

(* ================================================================== *)
(** ** The latest year *)
(* ================================================================== *)

(** X12.  The latest-year table that [main] hands to the scatter plots
    holds exactly the rows of the dataset whose year no other row
    exceeds; it has the dataset's columns, and it is empty only when
    the dataset is. *)
Theorem latest_data_spec dataset latest :
  latest_data dataset = Returns latest ->
  columns latest = columns dataset
  /\ (forall r, In r (rows latest) <->
                In r (rows dataset)
                /\ forall r', In r' (rows dataset) -> year r' <= year r)
  /\ (rows dataset <> [] -> rows latest <> []).
Proof.
  unfold latest_data, latest_year.
  destruct (keyed dataset); [|discriminate].
  intros H. injection H as <-. simpl. split; [reflexivity|].
  destruct (rows dataset) as [|r0 l] eqn:Hr.
  { simpl. split; [|auto]. intros r. split; [intros []|intros [[] _]]. }
  destruct (fold_max_spec (map year l) (year r0)) as [H1 [H2 H3]].
  set (y := fold_left Z.max (map year l) (year r0)) in *.
  assert (Hle : forall r', In r' (r0 :: l) -> year r' <= y).
  { intros r' [<-|Hin]; [exact H1|]. apply H2. apply in_map. exact Hin. }
  assert (Hex : exists r, In r (r0 :: l) /\ year r = y).
  { destruct H3 as [E|Hin]; [exists r0; split; [left; reflexivity|auto]|].
    apply in_map_iff in Hin as [r [E Hin]]. exists r. split; [right|]; auto. }
  split.
  - intros r. rewrite filter_In. split.
    + intros [Hin Hy]. apply Z.eqb_eq in Hy. split; [exact Hin|].
      intros r' Hr'. rewrite Hy. auto.
    + intros [Hin Hmax]. split; [exact Hin|]. apply Z.eqb_eq.
      destruct Hex as [r1 [Hin1 Hy1]].
      pose proof (Hmax r1 Hin1). pose proof (Hle r Hin). lia.
  - intros _ Hempty. destruct Hex as [r1 [Hin1 Hy1]].
    assert (Hin : In r1 (filter (fun r => year r =? y) (r0 :: l))).
    { apply filter_In. split; [exact Hin1|]. apply Z.eqb_eq. exact Hy1. }
    rewrite Hempty in Hin. contradiction.
Qed.

Lemma latest_data_spec_witness :
  columns (mkDataFrame true final_columns [sample_row]) = columns sample_dataset
  /\ (forall r, In r (rows (mkDataFrame true final_columns [sample_row])) <->
                In r (rows sample_dataset)
                /\ forall r', In r' (rows sample_dataset) -> year r' <= year r)
  /\ (rows sample_dataset <> [] ->
      rows (mkDataFrame true final_columns [sample_row]) <> []).
Proof.
  apply (latest_data_spec sample_dataset (mkDataFrame true final_columns [sample_row])).
  vm_compute. reflexivity.
Defined.

(* ================================================================== *)
(** ** The historical series and the forecast *)
(* ================================================================== *)

Lemma in_insert_by_year x r l : In x (insert_by_year r l) <-> x = r \/ In x l.
Proof.
  induction l as [|a l IH]; simpl; [intuition|].
  destruct (year r <? year a); simpl; [intuition|]. rewrite IH. intuition.
Qed.

Lemma in_sort_by_year x l : In x (sort_by_year l) <-> In x l.
Proof.
  induction l as [|a l IH]; simpl; [tauto|].
  rewrite in_insert_by_year, IH. intuition.
Qed.



Lemma StronglySorted_map {A B} (R : B -> B -> Prop) (f : A -> B) l :
  StronglySorted (fun a b => R (f a) (f b)) l -> StronglySorted R (map f l).
Proof.
  induction 1 as [|a l Hs IH Hall]; simpl; constructor; auto.
  apply Forall_forall. intros y Hy. apply in_map_iff in Hy as [x [<- Hx]].
  rewrite Forall_forall in Hall. auto.
Qed.

Lemma StronglySorted_filter {A} (R : A -> A -> Prop) (p : A -> bool) l :
  StronglySorted R l -> StronglySorted R (filter p l).
Proof.
  induction 1 as [|a l Hs IH Hall]; simpl; [constructor|].
  destruct (p a); [|exact IH]. constructor; [exact IH|].
  rewrite Forall_forall in *. intros x Hx. apply Hall.
  apply filter_In in Hx. tauto.
Qed.

(** The points of the historical series. *)
Lemma renewable_series_in df code s y v :
  renewable_series df code = Returns s ->
  (In (y, v) s <->
   isna v = false
   /\ exists r, In r (rows df) /\ country_code r = code /\ year r = y
                /\ get df "renewable_share" r = Some v).
Proof.
  unfold renewable_series, get.
  destruct (keyed df); [|discriminate].
  destruct (col_index "renewable_share" (columns df)) as [i|]; [|discriminate].
  intros H. injection H as <-. simpl.
  rewrite filter_In, in_map_iff. simpl. rewrite negb_true_iff. split.
  - intros [[r [E Hin]] Hv]. injection E as <- <-. split; [exact Hv|].
    rewrite in_sort_by_year in Hin. apply filter_In in Hin as [Hin Hc].
    apply String.eqb_eq in Hc. exists r. auto.
  - intros [Hv [r [Hin [Hc [Hy Hg]]]]]. injection Hg as <-. split; [|exact Hv].
    exists r. split; [rewrite Hy; reflexivity|].
    rewrite in_sort_by_year. apply filter_In. split; [exact Hin|].
    apply String.eqb_eq. exact Hc.
Qed.



(** X10.  When the dataset has no row of the selected country with a
    renewable share present (the country is absent, or all its values
    are missing), the forecaster returns nothing, whatever the model
    does: it ends in an exception, the model's own or the one raised
    for the empty year index. *)
Theorem forecast_without_observations
        (arima_forecast : Series -> Z -> outcome (list float)) df code steps :
  (forall r v, In r (rows df) -> country_code r = code ->
               get df "renewable_share" r = Some v -> isna v = true) ->
  (exists e, forecast_renewable_share arima_forecast df code steps = Raises e)
  \/ forecast_renewable_share arima_forecast df code steps = Unmodelled.
Proof.
  intros Hno. unfold forecast_renewable_share.
  destruct (renewable_series df code) as [s| |] eqn:Hs; simpl; eauto.
  assert (E : s = []).
  { destruct s as [|[y v] s']; [reflexivity|]. exfalso.
    destruct (proj1 (renewable_series_in df code _ y v Hs) (or_introl eq_refl))
      as [Hv [r [Hin [Hc [_ Hg]]]]].
    rewrite (Hno r v Hin Hc Hg) in Hv. discriminate. }
  subst s. destruct (arima_forecast [] steps); simpl; eauto.
Qed.

Lemma forecast_without_observations_witness :
  (exists e, forecast_renewable_share naive_forecast sample_dataset "DEU" 10 = Raises e)
  \/ forecast_renewable_share naive_forecast sample_dataset "DEU" 10 = Unmodelled.
Proof.
  apply (forecast_without_observations naive_forecast sample_dataset "DEU" 10).
  intros r v [<-|[<-|[]]] Hc; discriminate Hc.
Defined.



(* ================================================================== *)
(** ** Partitions of a list by a key *)
(* ================================================================== *)



Section Partition.

Variables (A K : Type) (sel : K -> A -> bool) (key : A -> K).
Hypothesis sel_spec : forall k x, sel k x = true <-> key x = k.



End Partition.


(* ================================================================== *)
(** ** Properties of [plot_line_trends] *)
(* ================================================================== *)

Lemma in_insert_code x c l : In x (insert_code c l) <-> x = c \/ In x l.
Proof.
  induction l as [|a l IH]; simpl; [intuition|].
  destruct (String.compare c a) eqn:H; simpl.
  - apply String.compare_eq_iff in H. subst. intuition.
  - intuition.
  - rewrite IH. intuition.
Qed.




Lemma in_group_codes df c :
  In c (group_codes df) <-> exists r, In r (rows df) /\ country_code r = c.
Proof.
  assert (H : In c (group_codes df) <-> In c (map country_code (rows df))).
  { unfold group_codes.
    induction (map country_code (rows df)) as [|a l IH]; simpl; [tauto|].
    rewrite in_insert_code, IH. intuition. }
  rewrite H, in_map_iff. split; intros [r Hr]; exists r; tauto.
Qed.

(** The lines of a successful call, one per group code. *)
Lemma plot_line_trends_inv df value_col lines :
  plot_line_trends df value_col = Returns lines ->
  Forall2 (fun code (line : Line) =>
             fst line = code
             /\ exists i, col_index value_col (columns df) = Some i
                          /\ snd line
                             = map (fun r => (year r, cell_at i r))
                                   (filter (fun r => String.eqb (country_code r) code)
                                           (rows df)))
          (group_codes df) lines.
Proof.
  unfold plot_line_trends. destruct (keyed df); [|discriminate].
  intros H. apply for_each_Forall2 in H.
  eapply Forall2_impl; [|exact H]. simpl. intros code line Hl.
  destruct (is_key_column value_col); [discriminate|].
  destruct (col_index value_col (columns df)) as [i|]; [|discriminate].
  injection Hl as <-. simpl. eauto.
Qed.



Lemma StronglySorted_map_inv {A B} (R : B -> B -> Prop) (f : A -> B) l :
  StronglySorted R (map f l) -> StronglySorted (fun a b => R (f a) (f b)) l.
Proof.
  induction l as [|a l IH]; simpl; intros H; [constructor|].
  inversion H as [|? ? Hs Hall]; subst. constructor; [auto|].
  rewrite Forall_forall in *. intros x Hx. apply Hall. apply in_map. exact Hx.
Qed.

Lemma StronglySorted_impl_in {A} (R R' : A -> A -> Prop) l :
  (forall a b, In a l -> In b l -> R a b -> R' a b) ->
  StronglySorted R l -> StronglySorted R' l.
Proof.
  intros Himp H. induction H as [|a l Hs IH Hall]; constructor.
  - apply IH. intros x y Hx Hy. apply Himp; right; assumption.
  - rewrite Forall_forall in *. intros x Hx.
    apply Himp; [left; reflexivity|right; exact Hx|auto].
Qed.

(** X13.  When the table is in ascending key order, as [build_dataset]
    returns it, and each country code goes with one country name, every
    line [plot_line_trends] draws runs through its years in ascending
    order. *)
Theorem plot_line_trends_year_order df value_col lines :
  plot_line_trends df value_col = Returns lines ->
  StronglySorted key_le (keys df) ->
  (forall r1 r2, In r1 (rows df) -> In r2 (rows df) ->
                 country_code r1 = country_code r2 -> country r1 = country r2) ->
  forall c points, In (c, points) lines -> StronglySorted Z.le (map fst points).
Proof.
  intros H Hs Hname c points Hin. apply plot_line_trends_inv in H.
  assert (Hl : exists i, points = map (fun r => (year r, cell_at i r))
                                      (filter (fun r => String.eqb (country_code r) c)
                                              (rows df))).
  { induction H as [|c0 line cs ls [Hc [i [_ Hi]]] _ IH]; [contradiction|].
    destruct Hin as [->|Hin]; [|auto]. simpl in *. subst c0. eauto. }
  destruct Hl as [i ->]. rewrite map_map. simpl.
  apply StronglySorted_map.
  apply StronglySorted_impl_in
    with (R := fun a b => key_le (key_of a) (key_of b)).
  - intros a b Ha Hb Hle.
    apply filter_In in Ha as [Ha Hca]. apply filter_In in Hb as [Hb Hcb].
    apply String.eqb_eq in Hca, Hcb.
    assert (Hn : country a = country b) by (apply Hname; congruence).
    unfold key_le, key_of, key_compare in Hle.
    rewrite Hca, Hcb, Hn, !string_compare_refl in Hle. exact Hle.
  - apply StronglySorted_filter. apply StronglySorted_map_inv. exact Hs.
Qed.

Lemma plot_line_trends_year_order_witness :
  StronglySorted Z.le (map fst [(2019, 9.5%float); (2020, 10.5%float)]).
Proof.
  apply (plot_line_trends_year_order sample_dataset "renewable_share"
           [("USA", [(2019, 9.5%float); (2020, 10.5%float)])] eq_refl)
    with (c := "USA").
  - repeat (constructor; [|repeat (constructor; [discriminate|]); constructor]).
    constructor.
  - intros r1 r2 [<-|[<-|[]]] [<-|[<-|[]]] _; reflexivity.
  - left. reflexivity.
Defined.

(** X15.  With a column name the table does not have,
    [plot_line_trends] raises [KeyError] as soon as the table has a
    row; on a table without rows it draws no line and raises
    nothing. *)
Theorem plot_line_trends_unknown_column df value_col :
  keyed df = true ->
  is_key_column value_col = false ->
  col_index value_col (columns df) = None ->
  (rows df = [] -> plot_line_trends df value_col = Returns [])
  /\ (rows df <> [] -> plot_line_trends df value_col = Raises KeyError).
Proof.
  intros Hk Hkey Hcol. unfold plot_line_trends. rewrite Hk, Hkey, Hcol. split.
  - intros Hr. unfold group_codes. rewrite Hr. reflexivity.
  - intros Hr. destruct (group_codes df) as [|c cs] eqn:Hg; [|reflexivity].
    exfalso. destruct (rows df) as [|r l] eqn:E; [contradiction|].
    assert (Hin : In (country_code r) (group_codes df)).
    { apply in_group_codes. exists r. rewrite E. split; [left|]; reflexivity. }
    rewrite Hg in Hin. contradiction.
Qed.

Lemma plot_line_trends_unknown_column_witness :
  (rows sample_dataset = [] -> plot_line_trends sample_dataset "co2" = Returns [])
  /\ (rows sample_dataset <> [] -> plot_line_trends sample_dataset "co2" = Raises KeyError).
Proof.
  apply (plot_line_trends_unknown_column sample_dataset "co2"); reflexivity.
Defined.

(* ================================================================== *)
(** ** Properties of [plot_scatter_clusters] *)
(* ================================================================== *)






(* ================================================================== *)
(** ** One row per country in the latest year *)
(* ================================================================== *)

Lemma same_year_codes_NoDup y l :
  NoDup (map key_of l) ->
  (forall r1 r2, In r1 l -> In r2 l ->
                 country_code r1 = country_code r2 -> country r1 = country r2) ->
  NoDup (map country_code (filter (fun r => year r =? y) l)).
Proof.
  induction l as [|a l IH]; simpl; intros Hnd Hname; [constructor|].
  inversion Hnd as [|? ? Hnotin Hnd']; subst.
  assert (IH' : NoDup (map country_code (filter (fun r => year r =? y) l))).
  { apply IH; [exact Hnd'|]. intros r1 r2 H1 H2. apply Hname; right; assumption. }
  destruct (year a =? y) eqn:Ha; [|exact IH']. simpl. constructor; [|exact IH'].
  intros Hin. apply Hnotin.
  apply in_map_iff in Hin as [r [Ec Hr]]. apply filter_In in Hr as [Hr Hy].
  apply Z.eqb_eq in Ha, Hy.
  assert (En : country r = country a).
  { apply Hname; [right; exact Hr|left; reflexivity|exact Ec]. }
  apply in_map_iff. exists r. split; [|exact Hr].
  unfold key_of. congruence.
Qed.

(** X16.  When the dataset has at most one row per (country_code,
    country, year) and each country code goes with one country name,
    the latest-year table that [main] hands to the scatter plots has at
    most one row per country code. *)
Theorem latest_data_one_per_country dataset latest :
  latest_data dataset = Returns latest ->
  NoDup (keys dataset) ->
  (forall r1 r2, In r1 (rows dataset) -> In r2 (rows dataset) ->
                 country_code r1 = country_code r2 -> country r1 = country r2) ->
  NoDup (map country_code (rows latest)).
Proof.
  unfold latest_data. destruct (keyed dataset); [|discriminate].
  intros H Hnd Hname. injection H as <-. simpl.
  destruct (latest_year dataset) as [y|].
  - apply same_year_codes_NoDup; assumption.
  - clear. induction (rows dataset); simpl; [constructor|assumption].
Qed.

(** The run with France and the United States in the latest year. *)
Lemma latest_data_one_per_country_witness :
  latest_data two_country_dataset = Returns two_country_latest
  /\ map country_code (rows two_country_dataset) = ["FRA"; "USA"; "USA"]
  /\ map country_code (rows two_country_latest) = ["FRA"; "USA"]
  /\ NoDup (map country_code (rows two_country_latest)).
Proof.
  split; [reflexivity|]. split; [reflexivity|]. split; [reflexivity|].
  apply (latest_data_one_per_country two_country_dataset).
  - reflexivity.
  - repeat (constructor; [simpl; intuition discriminate|]). constructor.
  - intros r1 r2 [<-|[<-|[<-|[]]]] [<-|[<-|[<-|[]]]] E;
      try reflexivity; discriminate E.
Defined.
